(** * Skill synchronisation, conflict resolution and reordering

    A shallow embedding of
      - [useSkillActions]   (hooks/useSkillActions.ts),
      - the error handlers  (utils/errorHandlers.ts),
      - [syncSkillToTools]  (utils/syncSkillToTools.ts),
    followed by the properties of the skill-sync engine that were checked
    against it.

    JavaScript strings are sequences of UTF-16 code units, and the regular
    expression used by the code is sensitive to four of them (the line
    terminators), so strings are modelled as lists of code units.  Effects
    (backend calls, dialogs, React state setters, console output) are modelled
    by a small state-and-exception monad that also records an event trace. *)

From Stdlib Require Import List NArith Bool String Ascii Lia PeanoNat.
From Stdlib Require Import Permutation.
Import ListNotations.

Set Implicit Arguments.

(* ------------------------------------------------------------------ *)
(** ** JavaScript strings *)

Module Js.

(** A string is its sequence of UTF-16 code units. *)
Definition jsstring := list N.

(** A source-code literal (ASCII only in this code base). *)
Definition lit (s : string) : jsstring :=
  map N_of_ascii (list_ascii_of_string s).

(** [a === b] on strings. *)
Fixpoint eqb (a b : jsstring) : bool :=
  match a, b with
  | [], [] => true
  | x :: a', y :: b' => N.eqb x y && eqb a' b'
  | _, _ => false
  end.

(** [s.startsWith(p)], returning what follows the prefix. *)
Fixpoint stripPrefix (p s : jsstring) : option jsstring :=
  match p, s with
  | [], _ => Some s
  | x :: p', y :: s' => if N.eqb x y then stripPrefix p' s' else None
  | _ :: _, [] => None
  end.

Definition startsWith (s p : jsstring) : bool :=
  match stripPrefix p s with Some _ => true | None => false end.

(** [s.indexOf(p)]: the least position at which [p] occurs in [s]. *)
Fixpoint indexOf (s p : jsstring) : option nat :=
  if startsWith s p then Some 0
  else match s with
       | [] => None
       | _ :: s' => option_map S (indexOf s' p)
       end.

(** [s.includes(p)]. *)
Definition includes (s p : jsstring) : bool :=
  match indexOf s p with Some _ => true | None => false end.

(** The line terminators of ECMAScript: LF, CR, U+2028, U+2029.  The
    pattern character [.] (no [s] flag) matches every code unit but these. *)
Definition isLineTerminator (c : N) : bool :=
  N.eqb c 10 || N.eqb c 13 || N.eqb c 8232 || N.eqb c 8233.

Definition dot (c : N) : bool := negb (isLineTerminator c).

(** The longest prefix whose code units all satisfy [f]: what a greedy
    [f+] consumes. *)
Fixpoint takeWhile (f : N -> bool) (s : jsstring) : jsstring :=
  match s with
  | [] => []
  | c :: s' => if f c then c :: takeWhile f s' else []
  end.

(** One attempt of the pattern [/<tag>(.+)/] at the start of [s]: the
    literal, then at least one [.]; [.+] is greedy and nothing follows it,
    so the first try of the quantifier already succeeds with the longest
    run.  The result is capture group 1. *)
Definition matchHere (tag s : jsstring) : option jsstring :=
  match stripPrefix tag s with
  | Some rest =>
      match takeWhile dot rest with
      | [] => None
      | run => Some run
      end
  | None => None
  end.

(** [s.match(/<tag>(.+)/)] (no [g] flag), projected on group 1: the
    attempt is made at position 0, 1, 2, ... and the first success wins. *)
Fixpoint matchTagDotPlus (tag s : jsstring) : option jsstring :=
  match matchHere tag s with
  | Some g => Some g
  | None =>
      match s with
      | [] => None
      | _ :: s' => matchTagDotPlus tag s'
      end
  end.

(** [s.split(sep)] for a separator of one code unit. *)
Fixpoint split (sep : N) (s : jsstring) : list jsstring :=
  match s with
  | [] => [[]]
  | c :: s' =>
      if N.eqb c sep then [] :: split sep s'
      else match split sep s' with
           | h :: t => (c :: h) :: t
           | [] => [[c]]
           end
  end.

(** [parts[i] || '']: a missing element is [undefined], which is falsy,
    as is the empty string. *)
Definition nthOrEmpty (parts : list jsstring) (i : nat) : jsstring :=
  nth i parts [].

(** [a || b] on strings: the empty string is falsy. *)
Definition orElse (a b : jsstring) : jsstring :=
  match a with [] => b | _ => a end.

End Js.

Import Js.

Definition TARGET_EXISTS_TAG : jsstring := lit "TARGET_EXISTS|".
Definition SKILL_EXISTS_TAG : jsstring := lit "SKILL_EXISTS|".
Definition TOOL_NOT_INSTALLED_TAG : jsstring := lit "TOOL_NOT_INSTALLED|".
Definition PIPE : N := 124.

(* ------------------------------------------------------------------ *)
(** ** Data model (features/skills/types, as far as the code reads it) *)

Module SkillTarget.
Record t := { tool : jsstring }.
End SkillTarget.

Module ManagedSkill.
Record t := {
  id : jsstring;
  name : jsstring;
  central_path : jsstring;
  targets : list SkillTarget.t
}.
End ManagedSkill.

Module ToolOption.
Record t := { id : jsstring; label : jsstring }.
End ToolOption.

(** [DragEndEvent] of @dnd-kit/core, reduced to what the handler reads:
    [event.active.id] and [event.over] (null when dropped outside), whose
    [id] is read.  Sortable items are keyed by skill ids, which are
    strings. *)
Record DragEndEvent := {
  active : jsstring;
  over : option jsstring
}.

(** A user-visible text: a verbatim string, or a translation [t(key, params)]
    kept symbolic. *)
Inductive text :=
| Raw (s : jsstring)
| T (key : string) (params : list (string * jsstring)).

(** How the batch reacts to TARGET_EXISTS: the type of [onTargetExists],
    ['confirm' | 'skip']. *)
Module Policy.
Inductive t := confirm | skip.
End Policy.

(** What [confirmBatchOverwrite] resolves to:
    ['overwrite' | 'overwriteAll' | 'skip']. *)
Module Choice.
Inductive t := overwrite | overwriteAll | skip.
End Choice.

(** The buttons in the footer of the batch dialog. *)
Inductive FooterButton := CancelBtn | OverwriteAllBtn | OkBtn.

Record SyncSkillToToolsOptions := {
  skillId : jsstring;
  centralPath : jsstring;
  skillName : jsstring;
  selectedTools : list jsstring;
  allTools : list ToolOption.t;
  onTargetExists : Policy.t
}.

(** Everything the code does to the outside, in program order. *)
Inductive event :=
| SetActionLoading (b : bool)
| SetDeleteSkillId (v : option jsstring)
| SetSkills (l : list ManagedSkill.t)
| ApiSyncSkillToTool (centralPath skillId toolId skillName : jsstring)
                     (overwrite : bool)
| ApiUnsyncSkillFromTool (skillId toolId : jsstring)
| ApiReorderSkills (ids : list jsstring)
| RefreshTrayMenu
| Refresh
| UpdateSkill (s : ManagedSkill.t)
| DeleteSkill (skillId : jsstring)
| ModalConfirm (title content okText cancelText : text)
| ModalError (title : text) (content : list text)
| MessageError (msg : text)
| ConsoleError (msg err : jsstring)
| ConsoleLog (msg : jsstring).

(** Result of an awaited call: it resolves, or it rejects.  The code only
    ever looks at [String(error)], so a rejection carries that string. *)
Inductive outcome (A : Type) :=
| Ok (a : A)
| Throw (e : jsstring).
Arguments Ok {A} a.
Arguments Throw {A} e.

(* ------------------------------------------------------------------ *)
(** ** Collaborators, state and the effect monad *)

Section Engine.

(** State of everything outside the front end: the backend, the file
    system, the user. *)
Variable W : Type.

(** The collaborators the code calls but does not define.  The optional
    fifth argument of [api.syncSkillToTool] is [false] when the call site
    omits it. *)
Record Env := {
  api_syncSkillToTool :
    jsstring -> jsstring -> jsstring -> jsstring -> bool -> W -> outcome unit * W;
  api_unsyncSkillFromTool : jsstring -> jsstring -> W -> outcome unit * W;
  api_reorderSkills : list jsstring -> W -> outcome unit * W;
  appApi_refreshTrayMenu : W -> outcome unit * W;
  (* useSkills(): these own the skill list and may replace it *)
  useSkills_refresh :
    list ManagedSkill.t -> W -> outcome unit * list ManagedSkill.t * W;
  useSkills_updateSkill :
    ManagedSkill.t -> list ManagedSkill.t -> W ->
    outcome unit * list ManagedSkill.t * W;
  useSkills_deleteSkill :
    jsstring -> list ManagedSkill.t -> W ->
    outcome unit * list ManagedSkill.t * W;
  (* the user in front of a Modal.confirm: true is the OK button *)
  user_confirm : text -> text -> W -> bool * W;
  (* the user in front of the batch dialog, clicking a rendered button *)
  user_click : text -> text -> list FooterButton -> W -> FooterButton * W;
  (* utils/gitErrorParser *)
  isGitError : jsstring -> bool;
  formatGitError : jsstring -> text
}.

Variable env : Env.

(** React state reachable from the hook, and the outside world. *)
Record St := {
  world : W;
  skills : list ManagedSkill.t;
  deleteSkillId : option jsstring;
  actionLoading : bool
}.

(** What running a piece of code gives: its completion, the state it
    leaves, and the events it performed. *)
Record Run (A : Type) := {
  result : outcome A;
  state : St;
  events : list event
}.

Definition M (A : Type) := St -> Run A.

Definition ret {A} (a : A) : M A :=
  fun st => {| result := Ok a; state := st; events := [] |}.

Definition bind {A B} (m : M A) (k : A -> M B) : M B :=
  fun st =>
    let r := m st in
    match result r with
    | Ok a =>
        let r' := k a (state r) in
        {| result := result r'; state := state r';
           events := events r ++ events r' |}
    | Throw e =>
        {| result := Throw e; state := state r; events := events r |}
    end.

Notation "x <- m ;; k" := (bind m (fun x => k))
  (at level 61, m at next level, right associativity).
Notation "m ;; k" := (bind m (fun _ => k))
  (at level 61, right associativity).

(** [try { m } catch (error) { h (String(error)) }] *)
Definition try_catch {A} (m : M A) (h : jsstring -> M A) : M A :=
  fun st =>
    let r := m st in
    match result r with
    | Ok a => r
    | Throw e =>
        let r' := h e (state r) in
        {| result := result r'; state := state r';
           events := events r ++ events r' |}
    end.

(** [try { m } finally { f }]: [f] runs on every exit of [m]; the
    completion of [m] stands unless [f] itself throws. *)
Definition try_finally {A} (m : M A) (f : M unit) : M A :=
  fun st =>
    let r := m st in
    let r' := f (state r) in
    {| result := match result r' with
                 | Ok _ => result r
                 | Throw e => Throw e
                 end;
       state := state r';
       events := events r ++ events r' |}.

(** [for (const x of l) { body x }] *)
Fixpoint for_of {X} (l : list X) (body : X -> M unit) : M unit :=
  match l with
  | [] => ret tt
  | x :: l' => body x ;; for_of l' body
  end.

(** An effect that cannot fail. *)
Definition emit (e : event) : M unit :=
  fun st => {| result := Ok tt; state := st; events := [e] |}.

(** An awaited collaborator call acting on the world only. *)
Definition call (e : event) (f : W -> outcome unit * W) : M unit :=
  fun st =>
    let '(r, w) := f (world st) in
    {| result := r;
       state := {| world := w; skills := skills st;
                   deleteSkillId := deleteSkillId st;
                   actionLoading := actionLoading st |};
       events := [e] |}.

(** An awaited [useSkills] call: it acts on the world and on the list. *)
Definition callSkills (e : event)
    (f : list ManagedSkill.t -> W -> outcome unit * list ManagedSkill.t * W)
    : M unit :=
  fun st =>
    let '(r, l, w) := f (skills st) (world st) in
    {| result := r;
       state := {| world := w; skills := l;
                   deleteSkillId := deleteSkillId st;
                   actionLoading := actionLoading st |};
       events := [e] |}.

(** *** React state setters *)

Definition setActionLoading (b : bool) : M unit :=
  fun st =>
    {| result := Ok tt;
       state := {| world := world st; skills := skills st;
                   deleteSkillId := deleteSkillId st; actionLoading := b |};
       events := [SetActionLoading b] |}.

Definition setDeleteSkillId (v : option jsstring) : M unit :=
  fun st =>
    {| result := Ok tt;
       state := {| world := world st; skills := skills st;
                   deleteSkillId := v; actionLoading := actionLoading st |};
       events := [SetDeleteSkillId v] |}.

Definition setSkills (l : list ManagedSkill.t) : M unit :=
  fun st =>
    {| result := Ok tt;
       state := {| world := world st; skills := l;
                   deleteSkillId := deleteSkillId st;
                   actionLoading := actionLoading st |};
       events := [SetSkills l] |}.

(** *** Collaborator calls *)

Definition syncSkillToTool (centralPath skillId toolId skillName : jsstring)
    (overwrite : bool) : M unit :=
  call (ApiSyncSkillToTool centralPath skillId toolId skillName overwrite)
       (api_syncSkillToTool env centralPath skillId toolId skillName overwrite).

Definition unsyncSkillFromTool (skillId toolId : jsstring) : M unit :=
  call (ApiUnsyncSkillFromTool skillId toolId)
       (api_unsyncSkillFromTool env skillId toolId).

Definition reorderSkills (ids : list jsstring) : M unit :=
  call (ApiReorderSkills ids) (api_reorderSkills env ids).

Definition refreshTrayMenu : M unit :=
  call RefreshTrayMenu (appApi_refreshTrayMenu env).

Definition refresh : M unit := callSkills Refresh (useSkills_refresh env).

Definition updateSkill (s : ManagedSkill.t) : M unit :=
  callSkills (UpdateSkill s) (useSkills_updateSkill env s).

Definition deleteSkill (skillId : jsstring) : M unit :=
  callSkills (DeleteSkill skillId) (useSkills_deleteSkill env skillId).

(* ------------------------------------------------------------------ *)
(** ** utils/errorHandlers.ts *)

Definition isSkillExistsError (errMsg : jsstring) : bool :=
  includes errMsg SKILL_EXISTS_TAG.

Definition extractSkillName (errMsg : jsstring) : jsstring :=
  match matchTagDotPlus SKILL_EXISTS_TAG errMsg with
  | Some g => g
  | None => []
  end.

(** The object [{ targetPath }], or null. *)
Definition parseTargetExistsError (errMsg : jsstring) : option jsstring :=
  if negb (includes errMsg TARGET_EXISTS_TAG) then None
  else match matchTagDotPlus TARGET_EXISTS_TAG errMsg with
       | Some g => Some g
       | None => None
       end.

(** [allTools.find((t) => t.id === toolId)] *)
Definition findTool (tools : list ToolOption.t) (toolId : jsstring)
    : option ToolOption.t :=
  find (fun t => eqb (ToolOption.id t) toolId) tools.

(** [const parts = errMsg.split('|'); parts[1] || ''; parts[2] || ''] *)
Definition toolNotInstalledFields (errMsg : jsstring) : jsstring * jsstring :=
  let parts := split PIPE errMsg in
  let toolKey := nthOrEmpty parts 1 in
  let skillsPath := nthOrEmpty parts 2 in
  (toolKey, skillsPath).

(** [tool?.label || toolKey], with [tool = allTools?.find(...)]. *)
Definition toolNameOf (tools : option (list ToolOption.t)) (toolKey : jsstring)
    : jsstring :=
  let tool := match tools with
              | Some l => findTool l toolKey
              | None => None
              end in
  orElse (match tool with Some t => ToolOption.label t | None => [] end)
         toolKey.

Definition showGitError (errMsg : jsstring)
    (tools : option (list ToolOption.t)) : M unit :=
  if startsWith errMsg TOOL_NOT_INSTALLED_TAG then
    let '(toolKey, skillsPath) := toolNotInstalledFields errMsg in
    let toolName := toolNameOf tools toolKey in
    emit (ModalError (T "common.error" [])
            [T "skills.errors.toolNotInstalled" [("tool"%string, toolName)];
             T "skills.errors.checkSkillsPath" [("path"%string, skillsPath)]])
  else if isGitError env errMsg then
    emit (ModalError (T "common.error" []) [formatGitError env errMsg])
  else
    emit (MessageError (Raw errMsg)).

(** The dialog of [confirmTargetOverwrite]. *)
Definition targetExistsTitle : text := T "skills.targetExists.title" [].

Definition targetExistsMessage (skillName toolLabel targetPath : jsstring)
    : text :=
  T "skills.targetExists.message"
    [("skill"%string, skillName); ("tool"%string, toolLabel);
     ("path"%string, targetPath)].

Definition targetExistsDialog (skillName toolLabel targetPath : jsstring)
    : event :=
  ModalConfirm targetExistsTitle
    (targetExistsMessage skillName toolLabel targetPath)
    (T "skills.overwrite.confirm" []) (T "skills.overwrite.skip" []).

(** Resolves to true on OK and to false on cancel; never rejects. *)
Definition confirmTargetOverwrite (skillName toolLabel targetPath : jsstring)
    : M bool :=
  fun st =>
    let '(b, w) :=
      user_confirm env targetExistsTitle
        (targetExistsMessage skillName toolLabel targetPath) (world st) in
    {| result := Ok b;
       state := {| world := w; skills := skills st;
                   deleteSkillId := deleteSkillId st;
                   actionLoading := actionLoading st |};
       events := [targetExistsDialog skillName toolLabel targetPath] |}.

(** The footer of the batch dialog: cancel, the overwrite-all button when
    more targets are pending, OK. *)
Definition batchFooter (hasMore : bool) : list FooterButton :=
  [CancelBtn] ++ (if hasMore then [OverwriteAllBtn] else []) ++ [OkBtn].

(** Each button resolves the promise with its own answer. *)
Definition confirmBatchOverwrite (skillName : jsstring) (hasMore : bool)
    : M Choice.t :=
  fun st =>
    let title := T "skills.overwrite.title" [] in
    let content :=
      T "skills.overwrite.messageWithName" [("name"%string, skillName)] in
    let '(b, w) := user_click env title content (batchFooter hasMore)
                     (world st) in
    {| result := Ok match b with
                    | OkBtn => Choice.overwrite
                    | CancelBtn => Choice.skip
                    | OverwriteAllBtn => Choice.overwriteAll
                    end;
       state := {| world := w; skills := skills st;
                   deleteSkillId := deleteSkillId st;
                   actionLoading := actionLoading st |};
       events := [ModalConfirm title content
                    (T "skills.overwrite.confirm" [])
                    (T "skills.overwrite.skip" [])] |}.

(** What both handlers compute in their catch block:
    [errMsg.includes('TARGET_EXISTS|')], and
    [match ? match[1] : ''] for [match = errMsg.match(/TARGET_EXISTS\|(.+)/)]. *)
Definition isTargetExists (errMsg : jsstring) : bool :=
  includes errMsg TARGET_EXISTS_TAG.

Definition targetPathOf (errMsg : jsstring) : jsstring :=
  match matchTagDotPlus TARGET_EXISTS_TAG errMsg with
  | Some g => g
  | None => []
  end.

(** [allTools.find((t) => t.id === toolId)?.label || toolId] *)
Definition toolLabelOf (tools : list ToolOption.t) (toolId : jsstring)
    : jsstring :=
  orElse (match findTool tools toolId with
          | Some t => ToolOption.label t
          | None => []
          end) toolId.

(* ------------------------------------------------------------------ *)
(** ** utils/syncSkillToTools.ts *)

(** The [catch (error)] block of the loop body, on [errMsg = String(error)]. *)
Definition syncSkillToTools_catch (options : SyncSkillToToolsOptions)
    (toolId errMsg : jsstring) : M unit :=
  if isTargetExists errMsg then
    match onTargetExists options with
    | Policy.confirm =>
        let targetPath := targetPathOf errMsg in
        let toolLabel := toolLabelOf (allTools options) toolId in
        shouldOverwrite <-
          confirmTargetOverwrite (skillName options) toolLabel targetPath ;;
        if (shouldOverwrite : bool) then
          try_catch
            (syncSkillToTool (centralPath options) (skillId options)
               toolId (skillName options) true)
            (fun retryError =>
               emit (ConsoleError
                       (lit "Failed to overwrite sync to " ++ toolId
                          ++ lit ":") retryError))
        else ret tt
    | Policy.skip =>
        emit (ConsoleLog
                (lit "Skipping " ++ toolId
                   ++ lit ": target exists (already synced)"))
    end
  else
    emit (ConsoleError (lit "Failed to sync to " ++ toolId ++ lit ":")
            errMsg).

(** The body of the loop, for one [toolId]. *)
Definition syncSkillToTools_body (options : SyncSkillToToolsOptions)
    (toolId : jsstring) : M unit :=
  try_catch
    (syncSkillToTool (centralPath options) (skillId options) toolId
       (skillName options) false)
    (syncSkillToTools_catch options toolId).

Definition syncSkillToTools (options : SyncSkillToToolsOptions) : M unit :=
  for_of (selectedTools options) (syncSkillToTools_body options).

(* ------------------------------------------------------------------ *)
(** ** hooks/useSkillActions.ts *)

(** [array.findIndex(f)]; [None] stands for -1. *)
Fixpoint findIndex {A} (f : A -> bool) (l : list A) : option nat :=
  match l with
  | [] => None
  | x :: l' => if f x then Some 0 else option_map S (findIndex f l')
  end.

(** [array.splice(i, 1)] on a copy: the array without its element [i]. *)
Definition removeAt {A} (i : nat) (l : list A) : list A :=
  firstn i l ++ skipn (S i) l.

(** [array.splice(i, 0, x)] on a copy: [x] inserted before position [i];
    a start beyond the end is clamped to the end. *)
Definition insertAt {A} (i : nat) (x : A) (l : list A) : list A :=
  firstn i l ++ x :: skipn i l.

(** Modelled from the spec: [arrayMove] of the package @dnd-kit/sortable is
    not under src/.  The spec (4.3) has the new sequence computed "by
    removing the element at fromIndex and reinserting at toIndex
    (single-element move semantics, not swap)", which is what the package
    does with two [splice] calls on a copy.  The handler only passes indices
    that [findIndex] returned, so [from] is always in range; out of range the
    array is returned as it is. *)
Definition arrayMove {A} (array : list A) (from to : nat) : list A :=
  match nth_error array from with
  | Some x => insertAt to x (removeAt from array)
  | None => array
  end.

(** Truthiness of a [string | null]: null and the empty string are falsy. *)
Definition truthy (v : option jsstring) : option jsstring :=
  match v with
  | Some (c :: s) => Some (c :: s)
  | _ => None
  end.

(** [deleteSkillId ? skills.find((s) => s.id === deleteSkillId) : undefined] *)
Definition skillToDelete (skills0 : list ManagedSkill.t)
    (deleteSkillId0 : option jsstring) : option ManagedSkill.t :=
  match truthy deleteSkillId0 with
  | Some i => find (fun s => eqb (ManagedSkill.id s) i) skills0
  | None => None
  end.

(** The [catch (error)] block of [handleToggleTool], on
    [errMsg = String(error)]. *)
Definition handleToggleTool_catch (tools : list ToolOption.t)
    (skill : ManagedSkill.t) (toolId errMsg : jsstring) : M unit :=
  if isTargetExists errMsg then
    let targetPath := targetPathOf errMsg in
    let toolLabel := toolLabelOf tools toolId in
    shouldOverwrite <-
      confirmTargetOverwrite (ManagedSkill.name skill) toolLabel targetPath ;;
    if (shouldOverwrite : bool) then
      try_catch
        (syncSkillToTool (ManagedSkill.central_path skill)
           (ManagedSkill.id skill) toolId (ManagedSkill.name skill) true ;;
         refresh ;;
         refreshTrayMenu)
        (fun retryError => emit (MessageError (Raw retryError)))
    else ret tt
  else showGitError errMsg (Some tools).

Definition handleToggleTool (tools : list ToolOption.t)
    (skill : ManagedSkill.t) (toolId : jsstring) : M unit :=
  let target :=
    find (fun t => eqb (SkillTarget.tool t) toolId)
         (ManagedSkill.targets skill) in
  let synced := match target with Some _ => true | None => false end in
  setActionLoading true ;;
  try_finally
    (try_catch
       ((if synced then
           unsyncSkillFromTool (ManagedSkill.id skill) toolId
         else
           syncSkillToTool (ManagedSkill.central_path skill)
             (ManagedSkill.id skill) toolId (ManagedSkill.name skill) false) ;;
        refresh ;;
        refreshTrayMenu)
       (handleToggleTool_catch tools skill toolId))
    (setActionLoading false).

Definition handleUpdate (tools : list ToolOption.t) (skill : ManagedSkill.t)
    : M unit :=
  setActionLoading true ;;
  try_finally
    (try_catch (updateSkill skill)
       (fun errMsg => showGitError errMsg (Some tools)))
    (setActionLoading false).

Definition handleDelete (skillId0 : jsstring) : M unit :=
  setDeleteSkillId (Some skillId0).

(** [deleteSkillId0] is the value the callback closed over. *)
Definition confirmDelete (tools : list ToolOption.t)
    (deleteSkillId0 : option jsstring) : M unit :=
  match truthy deleteSkillId0 with
  | None => ret tt  (* if (!deleteSkillId) return; *)
  | Some i =>
      setActionLoading true ;;
      try_finally
        (try_catch
           (deleteSkill i ;;
            setDeleteSkillId None ;;
            refreshTrayMenu)
           (fun errMsg => showGitError errMsg (Some tools)))
        (setActionLoading false)
  end.

(** [skills0] is the list the callback closed over. *)
Definition handleDragEnd (skills0 : list ManagedSkill.t)
    (event : DragEndEvent) : M unit :=
  match over event with
  | None => ret tt
  | Some overId =>
      if eqb (active event) overId then ret tt
      else
        let oldIndex :=
          findIndex (fun s => eqb (ManagedSkill.id s) (active event)) skills0 in
        let newIndex :=
          findIndex (fun s => eqb (ManagedSkill.id s) overId) skills0 in
        match oldIndex, newIndex with
        | Some oldIndex, Some newIndex =>
            (* Optimistic update *)
            let oldSkills := skills0 in
            let newSkills := arrayMove skills0 oldIndex newIndex in
            setSkills newSkills ;;
            try_catch
              (reorderSkills (map ManagedSkill.id newSkills) ;;
               refreshTrayMenu)
              (fun error =>
                 (* Rollback on error *)
                 emit (ConsoleError (lit "Failed to reorder skills:") error) ;;
                 setSkills oldSkills ;;
                 emit (MessageError (T "common.error" [])))
        | _, _ => ret tt
        end
  end.

(** What the hook returns for the current render: the state it exposes and
    the callbacks, closed over that render's [skills] and [deleteSkillId]. *)
Record UseSkillActionsResult := {
  res_actionLoading : bool;
  res_deleteSkillId : option jsstring;
  res_setDeleteSkillId : option jsstring -> M unit;
  res_skillToDelete : option ManagedSkill.t;
  res_handleToggleTool : ManagedSkill.t -> jsstring -> M unit;
  res_handleUpdate : ManagedSkill.t -> M unit;
  res_handleDelete : jsstring -> M unit;
  res_confirmDelete : M unit;
  res_handleDragEnd : DragEndEvent -> M unit
}.

Definition useSkillActions (tools : list ToolOption.t) (st : St)
    : UseSkillActionsResult :=
  {| res_actionLoading := actionLoading st;
     res_deleteSkillId := deleteSkillId st;
     res_setDeleteSkillId := setDeleteSkillId;
     res_skillToDelete := skillToDelete (skills st) (deleteSkillId st);
     res_handleToggleTool := handleToggleTool tools;
     res_handleUpdate := handleUpdate tools;
     res_handleDelete := handleDelete;
     res_confirmDelete := confirmDelete tools (deleteSkillId st);
     res_handleDragEnd := handleDragEnd (skills st) |}.

End Engine.

Arguments Ok {A} a.
Arguments Throw {A} e.

(* ------------------------------------------------------------------ *)
(** ** Observations on runs *)

Definition isSetActionLoading (e : event) : bool :=
  match e with SetActionLoading _ => true | _ => false end.

(** A dialog that asks the user to decide ([Modal.confirm]). *)
Definition isPrompt (e : event) : bool :=
  match e with ModalConfirm _ _ _ _ => true | _ => false end.

Definition isConsole (e : event) : bool :=
  match e with ConsoleError _ _ | ConsoleLog _ => true | _ => false end.

(** A call that reaches the backend or the tray. *)
Definition isBackendCall (e : event) : bool :=
  match e with
  | ApiSyncSkillToTool _ _ _ _ _ | ApiUnsyncSkillFromTool _ _
  | ApiReorderSkills _ | RefreshTrayMenu | Refresh | UpdateSkill _
  | DeleteSkill _ => true
  | _ => false
  end.

(** The tools of the first attempts (overwrite not requested), in order. *)
Fixpoint firstAttempts (tr : list event) : list jsstring :=
  match tr with
  | [] => []
  | ApiSyncSkillToTool _ _ toolId _ false :: tr' => toolId :: firstAttempts tr'
  | _ :: tr' => firstAttempts tr'
  end.

(** The world a state is moved to by a collaborator. *)
Definition withWorld {W} (st : St W) (w : W) : St W :=
  {| world := w; skills := skills st; deleteSkillId := deleteSkillId st;
     actionLoading := actionLoading st |}.

Definition firstTry (options : SyncSkillToToolsOptions) (toolId : jsstring)
    : event :=
  ApiSyncSkillToTool (centralPath options) (skillId options) toolId
    (skillName options) false.

(** What follows the dialog in the batch when the answer is [ans] and the
    overwriting call completes as [retry]. *)
Definition overwriteEvents (options : SyncSkillToToolsOptions)
    (toolId : jsstring) (ans : bool) (retry : outcome unit) : list event :=
  if ans then
    ApiSyncSkillToTool (centralPath options) (skillId options) toolId
      (skillName options) true ::
    match retry with
    | Ok _ => []
    | Throw e =>
        [ConsoleError (lit "Failed to overwrite sync to " ++ toolId ++ lit ":")
           e]
    end
  else [].

(** The entry an identifier resolves to, as [handleDragEnd] looks it up. *)
Definition resolveSkill (skills0 : list ManagedSkill.t) (i : jsstring)
    : option nat :=
  findIndex (fun s => eqb (ManagedSkill.id s) i) skills0.

(** [m] neither raises nor lowers the busy flag. *)
Definition calm {W A} (m : M W A) : Prop :=
  forall st,
    forallb (fun e => negb (isSetActionLoading e)) (events (m st)) = true /\
    actionLoading (state (m st)) = actionLoading st.

(** [m] always completes normally. *)
Definition safe {W} (m : M W unit) : Prop :=
  forall st, result (m st) = Ok tt.

(** A run that did nothing. *)
Definition idle {W A} (a : A) (st : St W) : Run W A :=
  {| result := Ok a; state := st; events := [] |}.

(** The busy flag is raised first, lowered last, untouched in between, and
    the action completes normally. *)
Definition busyBracketed {W} (r : Run W unit) : Prop :=
  exists mid,
    events r = SetActionLoading true :: mid ++ [SetActionLoading false] /\
    forallb (fun e => negb (isSetActionLoading e)) mid = true /\
    actionLoading (state r) = false /\
    result r = Ok tt.

(* ------------------------------------------------------------------ *)
(** ** A concrete backend and user, to run the code on *)

Module Scenario.

Record World := {
  occupied : list jsstring;      (* tools whose destination holds foreign content *)
  broken : list jsstring;        (* tools whose sync fails for another reason *)
  materialised : list jsstring;  (* tools holding a copy: the skill's targets *)
  persisted : list jsstring;     (* the order the backend has stored *)
  answers : list bool;           (* the user's coming answers to dialogs *)
  unsyncError : option jsstring; (* what unsync rejects with, if it does *)
  persistFails : bool;
  trayFails : bool
}.

Definition mem (x : jsstring) (l : list jsstring) : bool :=
  existsb (eqb x) l.

Definition sync (_ _ toolId _ : jsstring) (overwrite : bool) (w : World)
    : outcome unit * World :=
  if mem toolId (broken w) then (Throw (lit "io error"), w)
  else if mem toolId (occupied w) && negb overwrite then
    (Throw (lit "TARGET_EXISTS|/tools/" ++ toolId ++ lit "/skill"), w)
  else
    (Ok tt,
     {| occupied := filter (fun t => negb (eqb t toolId)) (occupied w);
        broken := broken w;
        materialised :=
          if mem toolId (materialised w) then materialised w
          else materialised w ++ [toolId];
        persisted := persisted w; answers := answers w;
        unsyncError := unsyncError w;
        persistFails := persistFails w; trayFails := trayFails w |}).

Definition unsync (_ toolId : jsstring) (w : World) : outcome unit * World :=
  match unsyncError w with
  | Some e => (Throw e, w)
  | None =>
      (Ok tt,
       {| occupied := occupied w; broken := broken w;
          materialised :=
            filter (fun t => negb (eqb t toolId)) (materialised w);
          persisted := persisted w; answers := answers w;
          unsyncError := unsyncError w;
          persistFails := persistFails w; trayFails := trayFails w |})
  end.

Definition reorder (ids : list jsstring) (w : World) : outcome unit * World :=
  if persistFails w then (Throw (lit "database is locked"), w)
  else
    (Ok tt,
     {| occupied := occupied w; broken := broken w;
        materialised := materialised w;
        persisted := ids; answers := answers w;
        unsyncError := unsyncError w;
        persistFails := persistFails w; trayFails := trayFails w |}).

Definition tray (w : World) : outcome unit * World :=
  if trayFails w then (Throw (lit "tray unavailable"), w) else (Ok tt, w).

Definition answer (_ _ : text) (w : World) : bool * World :=
  match answers w with
  | [] => (false, w)
  | b :: rest =>
      (b,
       {| occupied := occupied w; broken := broken w;
          materialised := materialised w;
          persisted := persisted w; answers := rest;
          unsyncError := unsyncError w;
          persistFails := persistFails w; trayFails := trayFails w |})
  end.

Definition env : Env World :=
  {| api_syncSkillToTool := sync;
     api_unsyncSkillFromTool := unsync;
     api_reorderSkills := reorder;
     appApi_refreshTrayMenu := tray;
     useSkills_refresh := fun l w => (Ok tt, l, w);
     useSkills_updateSkill := fun _ l w => (Ok tt, l, w);
     useSkills_deleteSkill :=
       fun i l w =>
         (Ok tt, filter (fun s => negb (eqb (ManagedSkill.id s) i)) l, w);
     user_confirm := answer;
     user_click := fun _ _ _ w => (OkBtn, w);
     isGitError := fun _ => false;
     formatGitError := Raw |}.

Definition quiet : World :=
  {| occupied := []; broken := []; materialised := []; persisted := [];
     answers := []; unsyncError := None;
     persistFails := false; trayFails := false |}.

Definition mkSkill (i : string) (ts : list string) : ManagedSkill.t :=
  {| ManagedSkill.id := lit i; ManagedSkill.name := lit "skill-" ++ lit i;
     ManagedSkill.central_path := lit "/central/" ++ lit i;
     ManagedSkill.targets := map (fun t => {| SkillTarget.tool := lit t |}) ts |}.

Definition skills1234 : list ManagedSkill.t :=
  [mkSkill "1" []; mkSkill "2" []; mkSkill "3" []; mkSkill "4" []].

Definition start (w : World) (l : list ManagedSkill.t) : St World :=
  {| world := w; skills := l; deleteSkillId := None; actionLoading := false |}.

Definition tools : list ToolOption.t :=
  [ {| ToolOption.id := lit "A"; ToolOption.label := lit "Tool A" |};
    {| ToolOption.id := lit "B"; ToolOption.label := lit "Tool B" |};
    {| ToolOption.id := lit "C"; ToolOption.label := lit "Tool C" |} ].

Definition batch (p : Policy.t) : SyncSkillToToolsOptions :=
  {| skillId := lit "s1"; centralPath := lit "/central/s1";
     skillName := lit "lint"; selectedTools := [lit "A"; lit "B"; lit "C"];
     allTools := tools; onTargetExists := p |}.

End Scenario.

(* ------------------------------------------------------------------ *)
(** ** Further observations, used by the properties beyond the claims *)

(** A sync call that tells the backend to replace what is there. *)
Definition isOverwriteCall (e : event) : bool :=
  match e with
  | ApiSyncSkillToTool _ _ _ _ true => true
  | _ => false
  end.

(** Something shown to the user as an error: a [Modal.error] or a
    [message.error]. *)
Definition isNotification (e : event) : bool :=
  match e with
  | ModalError _ _ | MessageError _ => true
  | _ => false
  end.

(** The only kinds of events [syncSkillToTools] contains code for. *)
Definition isBatchEvent (e : event) : bool :=
  match e with
  | ApiSyncSkillToTool _ _ _ _ _ | ModalConfirm _ _ _ _
  | ConsoleError _ _ | ConsoleLog _ => true
  | _ => false
  end.

(** No "|" in the string. *)
Definition noPipe (s : jsstring) : bool :=
  forallb (fun c => negb (N.eqb c PIPE)) s.

(** The first call of [handleToggleTool]: unsync when the skill has a target
    for the tool, sync without overwrite otherwise. *)
Definition toggleFirstCall (skill : ManagedSkill.t) (toolId : jsstring)
    : event :=
  match find (fun t => eqb (SkillTarget.tool t) toolId)
             (ManagedSkill.targets skill) with
  | Some _ => ApiUnsyncSkillFromTool (ManagedSkill.id skill) toolId
  | None =>
      ApiSyncSkillToTool (ManagedSkill.central_path skill)
        (ManagedSkill.id skill) toolId (ManagedSkill.name skill) false
  end.

(** The concrete backend with a user who answers no to every dialog. *)
Definition decliningEnv : Env Scenario.World :=
  {| api_syncSkillToTool := Scenario.sync;
     api_unsyncSkillFromTool := Scenario.unsync;
     api_reorderSkills := Scenario.reorder;
     appApi_refreshTrayMenu := Scenario.tray;
     useSkills_refresh := useSkills_refresh Scenario.env;
     useSkills_updateSkill := useSkills_updateSkill Scenario.env;
     useSkills_deleteSkill := useSkills_deleteSkill Scenario.env;
     user_confirm := fun _ _ w => (false, w);
     user_click := fun _ _ _ w => (CancelBtn, w);
     isGitError := fun _ => false;
     formatGitError := Raw |}.

(** Every call with overwrite in the trace stands directly behind a
    dialog; [prev] says whether the event before the trace was a dialog. *)
Fixpoint overwriteFollowsPrompt (prev : bool) (tr : list event) : bool :=
  match tr with
  | [] => true
  | e :: tr' =>
      (if isOverwriteCall e then prev else true)
      && overwriteFollowsPrompt (isPrompt e) tr'
  end.

(** A tool option with the given id and label. *)
Definition mkTool (i l : string) : ToolOption.t :=
  {| ToolOption.id := lit i; ToolOption.label := lit l |}.

(** A world of the concrete backend in which the given tools are occupied. *)
Definition occupiedWorld (ts : list jsstring) (ans : list bool)
    : Scenario.World :=
  {| Scenario.occupied := ts; Scenario.broken := [];
     Scenario.materialised := []; Scenario.persisted := [];
     Scenario.answers := ans; Scenario.unsyncError := None;
     Scenario.persistFails := false; Scenario.trayFails := false |}.

(* ------------------------------------------------------------------ *)
(** ** Facts about strings *)

Lemma eqb_eq (a b : jsstring) : eqb a b = true <-> a = b.
Proof.
  revert b; induction a as [|x a IH]; intros [|y b]; simpl;
    try (split; [discriminate | discriminate]); try tauto.
  rewrite andb_true_iff, N.eqb_eq, IH.
  split; [intros [-> ->]; reflexivity | intros H; inversion H; auto].
Qed.

Lemma eqb_refl (a : jsstring) : eqb a a = true.
Proof. apply eqb_eq; reflexivity. Qed.

Lemma eqb_neq (a b : jsstring) : eqb a b = false <-> a <> b.
Proof.
  rewrite <- eqb_eq. destruct (eqb a b); split; congruence.
Qed.

Lemma stripPrefix_Some (p s r : jsstring) :
  stripPrefix p s = Some r <-> s = p ++ r.
Proof.
  revert s; induction p as [|x p IH]; intros s; simpl.
  - split; [intros H; inversion H; reflexivity | intros ->; reflexivity].
  - destruct s as [|y s]; [split; discriminate|].
    destruct (N.eqb_spec x y) as [->|Hne].
    + rewrite IH. split; [intros ->; reflexivity | intros H; inversion H; auto].
    + split; [discriminate | intros H; inversion H; congruence].
Qed.

Lemma stripPrefix_app (p r : jsstring) : stripPrefix p (p ++ r) = Some r.
Proof. apply stripPrefix_Some; reflexivity. Qed.


Lemma startsWith_true (s p : jsstring) :
  startsWith s p = true <-> exists r, s = p ++ r.
Proof.
  unfold startsWith. destruct (stripPrefix p s) as [r|] eqn:E.
  - apply stripPrefix_Some in E. split; eauto.
  - split; [discriminate|]. intros [r ->].
    rewrite stripPrefix_app in E; discriminate.
Qed.

(** [indexOf] finds an occurrence ... *)
Lemma indexOf_Some (s p : jsstring) (i : nat) :
  indexOf s p = Some i ->
  s = firstn i s ++ p ++ skipn (i + List.length p) s.
Proof.
  revert i; induction s as [|c s IH]; intros i; simpl.
  - destruct (startsWith [] p) eqn:E; [|discriminate].
    intros H; inversion H; subst i. simpl.
    apply startsWith_true in E. destruct E as [r E].
    destruct p; [destruct r; [reflexivity|discriminate]|discriminate].
  - destruct (startsWith (c :: s) p) eqn:E.
    + intros H; inversion H; subst i. simpl firstn. simpl app at 1.
      apply startsWith_true in E. destruct E as [r E]. rewrite E.
      rewrite skipn_app, Nat.sub_diag, skipn_all; reflexivity.
    + destruct (indexOf s p) as [j|] eqn:Ej; [|discriminate].
      simpl. intros H; inversion H; subst i. simpl.
      f_equal. apply IH; reflexivity.
Qed.

(** ... and it finds one whenever there is one. *)
Lemma indexOf_complete (pre p post : jsstring) :
  exists i, indexOf (pre ++ p ++ post) p = Some i /\ i <= List.length pre.
Proof.
  induction pre as [|c pre IH].
  - exists 0. split; [|simpl; lia]. simpl app.
    assert (E : startsWith (p ++ post) p = true)
      by (apply startsWith_true; eauto).
    destruct (p ++ post); simpl; rewrite E; reflexivity.
  - simpl app. simpl indexOf.
    destruct (startsWith (c :: pre ++ p ++ post) p).
    + exists 0; split; [reflexivity | simpl; lia].
    + destruct IH as [i [-> Hi]]. exists (S i). split; [reflexivity|simpl; lia].
Qed.

Lemma includes_true (s p : jsstring) :
  includes s p = true <-> exists pre post, s = pre ++ p ++ post.
Proof.
  unfold includes. split.
  - destruct (indexOf s p) as [i|] eqn:E; [|discriminate].
    intros _. apply indexOf_Some in E. eauto.
  - intros [pre [post ->]].
    destruct (indexOf_complete pre p post) as [i [-> _]]. reflexivity.
Qed.

Lemma takeWhile_all (f : N -> bool) (s : jsstring) :
  forallb f s = true -> takeWhile f s = s.
Proof.
  induction s as [|c s IH]; simpl; [reflexivity|].
  destruct (f c); simpl; [intros H; f_equal; auto | discriminate].
Qed.

Lemma takeWhile_forallb (f : N -> bool) (s : jsstring) :
  forallb f (takeWhile f s) = true.
Proof.
  induction s as [|c s IH]; simpl; [reflexivity|].
  destruct (f c) eqn:E; simpl; [rewrite E; auto | reflexivity].
Qed.


Lemma matchTagDotPlus_None (tag s : jsstring) :
  indexOf s tag = None -> matchTagDotPlus tag s = None.
Proof.
  induction s as [|c s IH]; simpl; unfold startsWith, matchHere.
  - destruct (stripPrefix tag []); [discriminate | reflexivity].
  - destruct (stripPrefix tag (c :: s)); [discriminate|].
    destruct (indexOf s tag); [discriminate | auto].
Qed.

Lemma findIndex_Some {A} (f : A -> bool) (l : list A) (i : nat) :
  findIndex f l = Some i -> exists x, nth_error l i = Some x /\ f x = true.
Proof.
  revert i; induction l as [|y l IH]; intros i; simpl; [discriminate|].
  destruct (f y) eqn:E.
  - intros H; inversion H; subst i. exists y; auto.
  - destruct (findIndex f l) as [j|]; [|discriminate].
    simpl. intros H; inversion H; subst i. apply IH; reflexivity.
Qed.

(* ------------------------------------------------------------------ *)
(** ** Error-string parsing *)

(** C8.  The wire string "TARGET_EXISTS|/a/b/skill.md" parses to a
    target-exists conflict whose path is "/a/b/skill.md" (by
    [parseTargetExistsError] and by the test and extraction both handlers
    inline), and "TOOL_NOT_INSTALLED|vscode|/skills" is recognised by
    [showGitError] as tool-not-installed with toolKey "vscode" and
    skillsPath "/skills", which it shows in an error dialog. *)
Theorem C8_error_string_parsing :
  parseTargetExistsError (lit "TARGET_EXISTS|/a/b/skill.md")
    = Some (lit "/a/b/skill.md") /\
  isTargetExists (lit "TARGET_EXISTS|/a/b/skill.md") = true /\
  targetPathOf (lit "TARGET_EXISTS|/a/b/skill.md") = lit "/a/b/skill.md" /\
  startsWith (lit "TOOL_NOT_INSTALLED|vscode|/skills") TOOL_NOT_INSTALLED_TAG
    = true /\
  split PIPE (lit "TOOL_NOT_INSTALLED|vscode|/skills")
    = [lit "TOOL_NOT_INSTALLED"; lit "vscode"; lit "/skills"] /\
  toolNotInstalledFields (lit "TOOL_NOT_INSTALLED|vscode|/skills")
    = (lit "vscode", lit "/skills") /\
  forall W (env : Env W) (tools : option (list ToolOption.t)) (st : St W),
    showGitError env (lit "TOOL_NOT_INSTALLED|vscode|/skills") tools st =
      {| result := Ok tt; state := st;
         events :=
           [ModalError (T "common.error" [])
              [T "skills.errors.toolNotInstalled"
                 [("tool"%string, toolNameOf tools (lit "vscode"))];
               T "skills.errors.checkSkillsPath"
                 [("path"%string, lit "/skills")]]] |}.
Proof.
  repeat split; try (vm_compute; reflexivity).
Qed.




(* ------------------------------------------------------------------ *)
(** ** Reordering *)

(** C9.  A reorder whose source or destination does not resolve to a skill
    of the list (an absent drop target included), or whose source and
    destination resolve to the same index, does nothing: the state is left
    as it was, no call is made, nothing is shown, and the handler completes
    normally. *)
Theorem C9_reorder_noop W (env : Env W) (skills0 : list ManagedSkill.t)
    (ev : DragEndEvent) (st : St W) :
  let fromIndex := resolveSkill skills0 (active ev) in
  let toIndex :=
    match over ev with
    | Some o => resolveSkill skills0 o
    | None => None
    end in
  fromIndex = None \/ toIndex = None \/ fromIndex = toIndex ->
  handleDragEnd env skills0 ev st = idle tt st.
Proof.
  intros fromIndex toIndex H. subst fromIndex toIndex.
  unfold handleDragEnd, resolveSkill in *.
  destruct (over ev) as [o|]; [|reflexivity].
  destruct (eqb (active ev) o) eqn:Eeq; [reflexivity|].
  destruct (findIndex _ skills0) as [a|] eqn:Ea; [|reflexivity].
  destruct (findIndex (fun s => eqb (ManagedSkill.id s) o) skills0)
    as [b|] eqn:Eb; [|reflexivity].
  exfalso.
  destruct H as [H|[H|H]]; try discriminate.
  inversion H; subst b.
  apply findIndex_Some in Ea. apply findIndex_Some in Eb.
  destruct Ea as [x [Hx Hxa]]. destruct Eb as [y [Hy Hyo]].
  rewrite Hx in Hy. inversion Hy; subst y.
  apply eqb_eq in Hxa. apply eqb_eq in Hyo.
  apply eqb_neq in Eeq. congruence.
Qed.

(** A run of C9: skill "3" dropped on itself. *)
Lemma C9_witness :
  (resolveSkill Scenario.skills1234 (lit "3") = None \/
   resolveSkill Scenario.skills1234 (lit "3") = None \/
   resolveSkill Scenario.skills1234 (lit "3")
     = resolveSkill Scenario.skills1234 (lit "3")) /\
  handleDragEnd Scenario.env Scenario.skills1234
    {| active := lit "3"; over := Some (lit "3") |}
    (Scenario.start Scenario.quiet Scenario.skills1234)
  = idle tt (Scenario.start Scenario.quiet Scenario.skills1234).
Proof.
  split; [right; right; reflexivity|].
  apply (C9_reorder_noop Scenario.env Scenario.skills1234
           {| active := lit "3"; over := Some (lit "3") |}).
  right; right; reflexivity.
Defined.

(** C3.  With four skills of distinct ids in the order [1,2,3,4], dragging
    the first onto the third moves index 0 to index 2: the order shown at
    once, before the backend is called, is [2,3,1,4] (one element removed and
    reinserted).  If the persistence call then fails, the handler logs,
    puts back exactly [1,2,3,4], shows the generic error and completes. *)
Theorem C3_reorder_roundtrip W (env : Env W)
    (s1 s2 s3 s4 : ManagedSkill.t) (st : St W) :
  NoDup (map ManagedSkill.id [s1; s2; s3; s4]) ->
  let old := [s1; s2; s3; s4] in
  let new := [s2; s3; s1; s4] in
  let r :=
    handleDragEnd env old
      {| active := ManagedSkill.id s1; over := Some (ManagedSkill.id s3) |}
      st in
  resolveSkill old (ManagedSkill.id s1) = Some 0 /\
  resolveSkill old (ManagedSkill.id s3) = Some 2 /\
  arrayMove old 0 2 = new /\
  (exists tl,
     events r =
       SetSkills new :: ApiReorderSkills (map ManagedSkill.id new) :: tl) /\
  (forall e w',
     api_reorderSkills env (map ManagedSkill.id new) (world st)
       = (Throw e, w') ->
     skills (state r) = old /\
     result r = Ok tt /\
     events r =
       [SetSkills new; ApiReorderSkills (map ManagedSkill.id new);
        ConsoleError (lit "Failed to reorder skills:") e;
        SetSkills old; MessageError (T "common.error" [])]).
Proof.
  intros Hnd old new r.
  assert (H13 : eqb (ManagedSkill.id s1) (ManagedSkill.id s3) = false).
  { apply eqb_neq. intros E. inversion Hnd as [|? ? Hn _]; subst.
    apply Hn. simpl. rewrite E. auto. }
  assert (H23 : eqb (ManagedSkill.id s2) (ManagedSkill.id s3) = false).
  { apply eqb_neq. intros E. inversion Hnd as [|? ? _ Hnd']; subst.
    inversion Hnd' as [|? ? Hn _]; subst. apply Hn. simpl. rewrite E. auto. }
  assert (Hfrom : resolveSkill old (ManagedSkill.id s1) = Some 0).
  { unfold resolveSkill, old. simpl. rewrite eqb_refl. reflexivity. }
  assert (Hto : resolveSkill old (ManagedSkill.id s3) = Some 2).
  { unfold resolveSkill, old. simpl. rewrite H13, H23, eqb_refl. reflexivity. }
  split; [exact Hfrom|]. split; [exact Hto|]. split; [reflexivity|].
  unfold r, handleDragEnd. cbn [over active]. rewrite H13.
  unfold resolveSkill in Hfrom, Hto. rewrite Hfrom, Hto.
  change (arrayMove old 0 2) with new.
  unfold bind, try_catch, setSkills, reorderSkills, call, emit. cbn.
  split.
  - destruct (api_reorderSkills env _ (world st)) as [[[]|e] w]; cbn;
      [unfold refreshTrayMenu, call; cbn;
       destruct (appApi_refreshTrayMenu env w) as [[[]|e] w2]; cbn|];
      eexists; reflexivity.
  - intros e w' He. rewrite He. cbn. auto.
Qed.

(** A run of C3: the skills "1".."4", a backend that refuses to persist. *)
Lemma C3_witness :
  let w :=
    {| Scenario.occupied := []; Scenario.broken := [];
       Scenario.materialised := []; Scenario.persisted := [];
       Scenario.answers := []; Scenario.unsyncError := None;
       Scenario.persistFails := true; Scenario.trayFails := false |} in
  let r :=
    handleDragEnd Scenario.env Scenario.skills1234
      {| active := lit "1"; over := Some (lit "3") |}
      (Scenario.start w Scenario.skills1234) in
  NoDup (map ManagedSkill.id Scenario.skills1234) /\
  skills (state r) = Scenario.skills1234.
Proof.
  assert (Hnd : NoDup (map ManagedSkill.id Scenario.skills1234)).
  { repeat constructor; simpl; intuition discriminate. }
  split; [exact Hnd|].
  exact (proj1 (proj2 (proj2 (proj2 (proj2
    (@C3_reorder_roundtrip _ Scenario.env
       (Scenario.mkSkill "1" []) (Scenario.mkSkill "2" [])
       (Scenario.mkSkill "3" []) (Scenario.mkSkill "4" [])
       (Scenario.start
          {| Scenario.occupied := []; Scenario.broken := [];
             Scenario.materialised := []; Scenario.persisted := [];
             Scenario.answers := []; Scenario.unsyncError := None;
             Scenario.persistFails := true; Scenario.trayFails := false |}
          Scenario.skills1234)
       Hnd))))
    _ _ eq_refl)).
Defined.

(** C2 fails on the code.  The order is persisted (the backend call
    succeeds and stores [2,3,1,4]), then the tray refresh rejects: the
    catch block that was written for a failed reorder runs, and the visible
    order goes back to [1,2,3,4] while the backend keeps [2,3,1,4]. *)
Theorem C2_refresh_failure_undoes_persisted_order :
  let w :=
    {| Scenario.occupied := []; Scenario.broken := [];
       Scenario.materialised := []; Scenario.persisted := [];
       Scenario.answers := []; Scenario.unsyncError := None;
       Scenario.persistFails := false; Scenario.trayFails := true |} in
  let r :=
    handleDragEnd Scenario.env Scenario.skills1234
      {| active := lit "1"; over := Some (lit "3") |}
      (Scenario.start w Scenario.skills1234) in
  Scenario.reorder (map lit ["2"; "3"; "1"; "4"]%string) w
    = (Ok tt, world (state r)) /\
  Scenario.persisted (world (state r)) = map lit ["2"; "3"; "1"; "4"]%string /\
  map ManagedSkill.id (skills (state r)) = map lit ["1"; "2"; "3"; "4"]%string /\
  events r =
    [SetSkills (map (fun i => Scenario.mkSkill i []) ["2"; "3"; "1"; "4"]%string);
     ApiReorderSkills (map lit ["2"; "3"; "1"; "4"]%string);
     RefreshTrayMenu;
     ConsoleError (lit "Failed to reorder skills:") (lit "tray unavailable");
     SetSkills Scenario.skills1234;
     MessageError (T "common.error" [])].
Proof.
  repeat split.
Qed.

(** What decides the rollback in general: the visible order at the end is
    the old one exactly when the [try] block throws, be it in the
    persistence call or in the tray refresh that follows it. *)
Lemma handleDragEnd_final_order W (env : Env W)
    (skills0 : list ManagedSkill.t) (ev : DragEndEvent) (o : jsstring)
    (a b : nat) (st : St W) :
  over ev = Some o ->
  eqb (active ev) o = false ->
  resolveSkill skills0 (active ev) = Some a ->
  resolveSkill skills0 o = Some b ->
  let new := arrayMove skills0 a b in
  let '(p, w1) := api_reorderSkills env (map ManagedSkill.id new) (world st) in
  skills (state (handleDragEnd env skills0 ev st)) =
    match p with
    | Throw _ => skills0
    | Ok _ =>
        match fst (appApi_refreshTrayMenu env w1) with
        | Ok _ => new
        | Throw _ => skills0
        end
    end.
Proof.
  intros Ho Hne Ha Hb new.
  unfold handleDragEnd, resolveSkill in *. rewrite Ho, Hne, Ha, Hb.
  fold new.
  unfold bind, try_catch, setSkills, reorderSkills, refreshTrayMenu, call, emit.
  cbn.
  destruct (api_reorderSkills env _ (world st)) as [[[]|e] w]; cbn;
    [|reflexivity].
  destruct (appApi_refreshTrayMenu env w) as [[[]|e] w2]; reflexivity.
Qed.

(* ------------------------------------------------------------------ *)
(** ** The busy flag *)

Section Combinators.

Variable W : Type.
Variable env : Env W.

Lemma calm_ret A (a : A) : calm (@ret W A a).
Proof. intros st; split; reflexivity. Qed.

Lemma calm_emit (e : event) :
  isSetActionLoading e = false -> calm (@emit W e).
Proof. intros H st; simpl; rewrite H; split; reflexivity. Qed.

Lemma calm_call (e : event) (f : W -> outcome unit * W) :
  isSetActionLoading e = false -> calm (call e f).
Proof.
  intros H st. unfold call. destruct (f (world st)) as [r w]; simpl.
  rewrite H; split; reflexivity.
Qed.

Lemma calm_callSkills (e : event) f :
  isSetActionLoading e = false -> calm (@callSkills W e f).
Proof.
  intros H st. unfold callSkills.
  destruct (f (skills st) (world st)) as [[r l] w]; simpl.
  rewrite H; split; reflexivity.
Qed.

Lemma calm_setSkills (l : list ManagedSkill.t) : calm (@setSkills W l).
Proof. intros st; split; reflexivity. Qed.

Lemma calm_setDeleteSkillId (v : option jsstring) :
  calm (@setDeleteSkillId W v).
Proof. intros st; split; reflexivity. Qed.

Lemma calm_bind A B (m : M W A) (k : A -> M W B) :
  calm m -> (forall a, calm (k a)) -> calm (bind m k).
Proof.
  intros Hm Hk st. unfold bind. destruct (Hm st) as [Hm1 Hm2].
  destruct (result (m st)) as [a|e]; simpl; [|auto].
  destruct (Hk a (state (m st))) as [Hk1 Hk2].
  rewrite forallb_app, Hm1, Hk1, Hk2, Hm2. auto.
Qed.

Lemma calm_try_catch A (m : M W A) (h : jsstring -> M W A) :
  calm m -> (forall e, calm (h e)) -> calm (try_catch m h).
Proof.
  intros Hm Hh st. unfold try_catch. destruct (Hm st) as [Hm1 Hm2].
  destruct (result (m st)) as [a|e]; simpl; [auto|].
  destruct (Hh e (state (m st))) as [Hh1 Hh2].
  rewrite forallb_app, Hm1, Hh1, Hh2, Hm2. auto.
Qed.

Lemma calm_for_of X (l : list X) (body : X -> M W unit) :
  (forall x, calm (body x)) -> calm (for_of l body).
Proof.
  intros Hb. induction l as [|x l IH]; simpl.
  - apply calm_ret.
  - apply calm_bind; auto.
Qed.

Lemma calm_confirmTargetOverwrite (a b c : jsstring) :
  calm (confirmTargetOverwrite env a b c).
Proof.
  intros st. unfold confirmTargetOverwrite.
  destruct (user_confirm env _ _ (world st)) as [r w]; split; reflexivity.
Qed.

Lemma calm_showGitError (e : jsstring) tools : calm (showGitError env e tools).
Proof.
  unfold showGitError.
  destruct (startsWith e TOOL_NOT_INSTALLED_TAG).
  - destruct (toolNotInstalledFields e). apply calm_emit; reflexivity.
  - destruct (isGitError env e); apply calm_emit; reflexivity.
Qed.

Lemma safe_emit (e : event) : safe (@emit W e).
Proof. intros st; reflexivity. Qed.

Lemma safe_ret : safe (@ret W unit tt).
Proof. intros st; reflexivity. Qed.

Lemma safe_bind A (m : M W A) (k : A -> M W unit) :
  (forall st, exists a, result (m st) = Ok a) -> (forall a, safe (k a)) ->
  safe (bind m k).
Proof.
  intros Hm Hk st. unfold bind. destruct (Hm st) as [a ->]. simpl. apply Hk.
Qed.

Lemma safe_try_catch (m : M W unit) (h : jsstring -> M W unit) :
  (forall e, safe (h e)) -> safe (try_catch m h).
Proof.
  intros Hh st. unfold try_catch.
  destruct (result (m st)) as [[]|e] eqn:E; simpl; [exact E | apply Hh].
Qed.

Lemma safe_showGitError (e : jsstring) tools : safe (showGitError env e tools).
Proof.
  unfold showGitError.
  destruct (startsWith e TOOL_NOT_INSTALLED_TAG).
  - destruct (toolNotInstalledFields e). apply safe_emit.
  - destruct (isGitError env e); apply safe_emit.
Qed.

Lemma confirmTargetOverwrite_total (a b c : jsstring) (st : St W) :
  exists ans, result (confirmTargetOverwrite env a b c st) = Ok ans.
Proof.
  unfold confirmTargetOverwrite.
  destruct (user_confirm env _ _ (world st)) as [r w]. eexists; reflexivity.
Qed.

Lemma safe_handleToggleTool_catch tools skill toolId e :
  safe (handleToggleTool_catch env tools skill toolId e).
Proof.
  unfold handleToggleTool_catch. destruct (isTargetExists e).
  - apply safe_bind; [intros st; apply confirmTargetOverwrite_total|].
    intros [|]; [|apply safe_ret].
    apply safe_try_catch. intros e'. apply safe_emit.
  - apply safe_showGitError.
Qed.

Lemma calm_handleToggleTool_catch tools skill toolId e :
  calm (handleToggleTool_catch env tools skill toolId e).
Proof.
  unfold handleToggleTool_catch. destruct (isTargetExists e).
  - apply calm_bind; [apply calm_confirmTargetOverwrite|].
    intros [|]; [|apply calm_ret].
    apply calm_try_catch.
    + repeat (apply calm_bind; [|intros _]);
        first [apply calm_call | apply calm_callSkills]; reflexivity.
    + intros e'. apply calm_emit; reflexivity.
  - apply calm_showGitError.
Qed.

Lemma safe_syncSkillToTools_catch options toolId e :
  safe (syncSkillToTools_catch env options toolId e).
Proof.
  unfold syncSkillToTools_catch. destruct (isTargetExists e).
  - destruct (onTargetExists options); [|apply safe_emit].
    apply safe_bind; [intros st; apply confirmTargetOverwrite_total|].
    intros [|]; [|apply safe_ret].
    apply safe_try_catch. intros e'. apply safe_emit.
  - apply safe_emit.
Qed.

Lemma safe_syncSkillToTools_body options toolId :
  safe (syncSkillToTools_body env options toolId).
Proof. apply safe_try_catch. apply safe_syncSkillToTools_catch. Qed.

(** How the combinators run, as equations. *)
Lemma call_eq (e : event) (f : W -> outcome unit * W) (st : St W)
    (r : outcome unit) (w : W) :
  f (world st) = (r, w) ->
  call e f st = {| result := r; state := withWorld st w; events := [e] |}.
Proof. intros H. unfold call. rewrite H. reflexivity. Qed.

Lemma confirmTargetOverwrite_eq (a b c : jsstring) (st : St W) (ans : bool)
    (w : W) :
  user_confirm env targetExistsTitle (targetExistsMessage a b c) (world st)
    = (ans, w) ->
  confirmTargetOverwrite env a b c st =
    {| result := Ok ans; state := withWorld st w;
       events := [targetExistsDialog a b c] |}.
Proof. intros H. unfold confirmTargetOverwrite. rewrite H. reflexivity. Qed.

Lemma bind_ok A B (m : M W A) (k : A -> M W B) (st s1 : St W) (a : A)
    (ev : list event) :
  m st = {| result := Ok a; state := s1; events := ev |} ->
  bind m k st =
    {| result := result (k a s1); state := state (k a s1);
       events := ev ++ events (k a s1) |}.
Proof. intros H. unfold bind. rewrite H. reflexivity. Qed.

Lemma bind_throw A B (m : M W A) (k : A -> M W B) (st s1 : St W)
    (e : jsstring) (ev : list event) :
  m st = {| result := Throw e; state := s1; events := ev |} ->
  bind m k st = {| result := Throw e; state := s1; events := ev |}.
Proof. intros H. unfold bind. rewrite H. reflexivity. Qed.

Lemma try_catch_ok A (m : M W A) (h : jsstring -> M W A) (st s1 : St W)
    (a : A) (ev : list event) :
  m st = {| result := Ok a; state := s1; events := ev |} ->
  try_catch m h st = {| result := Ok a; state := s1; events := ev |}.
Proof. intros H. unfold try_catch. rewrite H. reflexivity. Qed.

Lemma try_catch_throw A (m : M W A) (h : jsstring -> M W A) (st s1 : St W)
    (e : jsstring) (ev : list event) :
  m st = {| result := Throw e; state := s1; events := ev |} ->
  try_catch m h st =
    {| result := result (h e s1); state := state (h e s1);
       events := ev ++ events (h e s1) |}.
Proof. intros H. unfold try_catch. rewrite H. reflexivity. Qed.

(** An action of the shape
    [setActionLoading(true); try { body } finally { setActionLoading(false) }]
    brackets a calm, safe body with the two flag updates. *)
Lemma busyBracketed_intro (body : M W unit) (st : St W) :
  calm body -> safe body ->
  busyBracketed
    (bind (@setActionLoading W true)
       (fun _ => try_finally body (@setActionLoading W false)) st).
Proof.
  intros Hc Hs. unfold busyBracketed, bind, try_finally. cbn.
  match goal with
  | |- context [body ?s] => set (st1 := s)
  end.
  exists (events (body st1)). destruct (Hc st1) as [Hc1 _].
  repeat split; auto.
Qed.

End Combinators.

(** C4 as first stated fails for the reorder action: a reorder that does
    reach the backend never touches the busy flag. *)
Lemma C4_counterexample :
  let r :=
    handleDragEnd Scenario.env Scenario.skills1234
      {| active := lit "1"; over := Some (lit "3") |}
      (Scenario.start Scenario.quiet Scenario.skills1234) in
  existsb isBackendCall (events r) = true /\
  existsb isSetActionLoading (events r) = false /\
  ~ In (SetActionLoading true) (events r).
Proof.
  split; [reflexivity|]. split; [reflexivity|].
  simpl. intuition discriminate.
Qed.

(** C4, amended.  [handleToggleTool], [handleUpdate] and [confirmDelete]
    with a delete target recorded raise the busy flag first, perform their
    operation without touching the flag, lower it last on every path, and
    complete normally.  [confirmDelete] without a recorded target returns at
    once and does nothing at all.  [handleDragEnd] (reorder) never touches
    the busy flag. *)
Theorem C4_busy_flag W (env : Env W) (tools : list ToolOption.t) (st : St W) :
  (forall skill toolId,
     busyBracketed (handleToggleTool env tools skill toolId st)) /\
  (forall skill, busyBracketed (handleUpdate env tools skill st)) /\
  (forall c i, busyBracketed (confirmDelete env tools (Some (c :: i)) st)) /\
  confirmDelete env tools None st = idle tt st /\
  confirmDelete env tools (Some []) st = idle tt st /\
  (forall skills0 ev,
     let r := handleDragEnd env skills0 ev st in
     forallb (fun e => negb (isSetActionLoading e)) (events r) = true /\
     actionLoading (state r) = actionLoading st).
Proof.
  repeat split.
  - intros skill toolId. unfold handleToggleTool.
    apply busyBracketed_intro.
    + apply calm_try_catch; [|intros e; apply calm_handleToggleTool_catch].
      repeat (apply calm_bind; [|intros _]);
        try (first [apply calm_call | apply calm_callSkills]; reflexivity).
      destruct (find _ _);
        first [apply calm_call | apply calm_callSkills]; reflexivity.
    + apply safe_try_catch. intros e. apply safe_handleToggleTool_catch.
  - intros skill. unfold handleUpdate. apply busyBracketed_intro.
    + apply calm_try_catch; [|intros e; apply calm_showGitError].
      apply calm_callSkills; reflexivity.
    + apply safe_try_catch. intros e. apply safe_showGitError.
  - intros c i. unfold confirmDelete. cbn [truthy].
    apply busyBracketed_intro.
    + apply calm_try_catch; [|intros e; apply calm_showGitError].
      apply calm_bind; [apply calm_callSkills; reflexivity|intros _].
      apply calm_bind; [apply calm_setDeleteSkillId|intros _].
      apply calm_call; reflexivity.
    + apply safe_try_catch. intros e. apply safe_showGitError.
  - assert (H : calm (handleDragEnd env skills0 ev)); [|apply H].
    unfold handleDragEnd.
    destruct (over ev) as [o|]; [|apply calm_ret].
    destruct (eqb (active ev) o); [apply calm_ret|].
    destruct (findIndex _ skills0) as [a|]; [|apply calm_ret].
    destruct (findIndex _ skills0) as [b|]; [|apply calm_ret].
    apply calm_bind; [apply calm_setSkills|intros _].
    apply calm_try_catch.
    + apply calm_bind; [|intros _]; apply calm_call; reflexivity.
    + intros e. apply calm_bind; [apply calm_emit; reflexivity|intros _].
      apply calm_bind; [apply calm_setSkills|intros _].
      apply calm_emit; reflexivity.
  - assert (H : calm (handleDragEnd env skills0 ev)); [|apply H].
    unfold handleDragEnd.
    destruct (over ev) as [o|]; [|apply calm_ret].
    destruct (eqb (active ev) o); [apply calm_ret|].
    destruct (findIndex _ skills0) as [a|]; [|apply calm_ret].
    destruct (findIndex _ skills0) as [b|]; [|apply calm_ret].
    apply calm_bind; [apply calm_setSkills|intros _].
    apply calm_try_catch.
    + apply calm_bind; [|intros _]; apply calm_call; reflexivity.
    + intros e. apply calm_bind; [apply calm_emit; reflexivity|intros _].
      apply calm_bind; [apply calm_setSkills|intros _].
      apply calm_emit; reflexivity.
Qed.

(* ------------------------------------------------------------------ *)
(** ** Batch sync *)

Section Batch.

Variable W : Type.
Variable env : Env W.
Variable options : SyncSkillToToolsOptions.

(** The loop goes on after every body: it never leaves early. *)
Lemma for_of_body_cons (toolId : jsstring) (rest : list jsstring) (st : St W) :
  let r1 := syncSkillToTools_body env options toolId st in
  let r2 := for_of rest (syncSkillToTools_body env options) (state r1) in
  for_of (toolId :: rest) (syncSkillToTools_body env options) st =
    {| result := result r2; state := state r2;
       events := events r1 ++ events r2 |}.
Proof.
  simpl. unfold bind at 1.
  rewrite (safe_syncSkillToTools_body env options toolId st). reflexivity.
Qed.

(** The first attempt succeeds: nothing else happens for this tool. *)
Lemma body_success (toolId : jsstring) (st : St W) (w1 : W) :
  api_syncSkillToTool env (centralPath options) (skillId options) toolId
    (skillName options) false (world st) = (Ok tt, w1) ->
  syncSkillToTools_body env options toolId st =
    {| result := Ok tt; state := withWorld st w1;
       events := [firstTry options toolId] |}.
Proof.
  intros H. unfold syncSkillToTools_body, try_catch, syncSkillToTool, call.
  rewrite H. reflexivity.
Qed.

(** The first attempt fails with something else than a conflict: the error
    is written to the console and that is all. *)
Lemma body_other_error (toolId : jsstring) (st : St W) (e : jsstring)
    (w1 : W) :
  api_syncSkillToTool env (centralPath options) (skillId options) toolId
    (skillName options) false (world st) = (Throw e, w1) ->
  isTargetExists e = false ->
  syncSkillToTools_body env options toolId st =
    {| result := Ok tt; state := withWorld st w1;
       events :=
         [firstTry options toolId;
          ConsoleError (lit "Failed to sync to " ++ toolId ++ lit ":") e] |}.
Proof.
  intros H He. unfold syncSkillToTools_body, try_catch, syncSkillToTool, call.
  rewrite H. cbn. unfold syncSkillToTools_catch. rewrite He. reflexivity.
Qed.

(** A conflict under policy [skip]: one console line, no dialog. *)
Lemma body_conflict_skip (toolId : jsstring) (st : St W) (e : jsstring)
    (w1 : W) :
  onTargetExists options = Policy.skip ->
  api_syncSkillToTool env (centralPath options) (skillId options) toolId
    (skillName options) false (world st) = (Throw e, w1) ->
  isTargetExists e = true ->
  syncSkillToTools_body env options toolId st =
    {| result := Ok tt; state := withWorld st w1;
       events :=
         [firstTry options toolId;
          ConsoleLog (lit "Skipping " ++ toolId
                        ++ lit ": target exists (already synced)")] |}.
Proof.
  intros Hp H He.
  unfold syncSkillToTools_body, try_catch, syncSkillToTool, call.
  rewrite H. cbn. unfold syncSkillToTools_catch. rewrite He, Hp. reflexivity.
Qed.

(** A conflict under policy [confirm]: the two-way dialog for this tool,
    and the overwriting call exactly when its answer is yes. *)
Lemma body_conflict_confirm (toolId : jsstring) (st : St W) (e : jsstring)
    (w1 : W) :
  onTargetExists options = Policy.confirm ->
  api_syncSkillToTool env (centralPath options) (skillId options) toolId
    (skillName options) false (world st) = (Throw e, w1) ->
  isTargetExists e = true ->
  let label := toolLabelOf (allTools options) toolId in
  let path := targetPathOf e in
  let '(ans, w2) :=
    user_confirm env targetExistsTitle
      (targetExistsMessage (skillName options) label path) w1 in
  let '(retry, w3) :=
    api_syncSkillToTool env (centralPath options) (skillId options) toolId
      (skillName options) true w2 in
  syncSkillToTools_body env options toolId st =
    {| result := Ok tt;
       state := withWorld st (if ans then w3 else w2);
       events :=
         firstTry options toolId
         :: targetExistsDialog (skillName options) label path
         :: overwriteEvents options toolId ans retry |}.
Proof.
  intros Hp H He label path. subst label path.
  destruct (user_confirm env _ _ w1) as [ans w2] eqn:Eu.
  destruct (api_syncSkillToTool env _ _ toolId _ true w2) as [retry w3] eqn:Er.
  unfold syncSkillToTools_body, syncSkillToTool.
  erewrite try_catch_throw by (apply call_eq; exact H).
  unfold syncSkillToTools_catch. rewrite He, Hp.
  erewrite bind_ok by (apply confirmTargetOverwrite_eq; exact Eu).
  destruct ans; [|reflexivity].
  unfold syncSkillToTool.
  destruct retry as [[]|e'].
  - erewrite try_catch_ok by (apply call_eq; exact Er). reflexivity.
  - erewrite try_catch_throw by (apply call_eq; exact Er). reflexivity.
Qed.

Lemma firstAttempts_app (a b : list event) :
  firstAttempts (a ++ b) = firstAttempts a ++ firstAttempts b.
Proof.
  induction a as [|x a IH]; [reflexivity|].
  destruct x; simpl; auto. destruct overwrite; simpl; [auto | f_equal; auto].
Qed.

Lemma firstAttempts_body (toolId : jsstring) (st : St W) :
  firstAttempts (events (syncSkillToTools_body env options toolId st))
    = [toolId].
Proof.
  destruct (api_syncSkillToTool env (centralPath options) (skillId options)
              toolId (skillName options) false (world st))
    as [[[]|e] w1] eqn:H.
  - rewrite (body_success _ _ H). reflexivity.
  - destruct (isTargetExists e) eqn:He.
    + destruct (onTargetExists options) eqn:Hp.
      * pose proof (body_conflict_confirm _ _ Hp H He) as Hb. cbv zeta in Hb.
        destruct (user_confirm env _ _ w1) as [ans w2].
        destruct (api_syncSkillToTool env _ _ toolId _ true w2)
          as [retry w3].
        rewrite Hb. destruct ans; [destruct retry|]; reflexivity.
      * rewrite (body_conflict_skip _ _ Hp H He). reflexivity.
    + rewrite (body_other_error _ _ H He). reflexivity.
Qed.

Lemma firstAttempts_for_of (l : list jsstring) (st : St W) :
  firstAttempts (events (for_of l (syncSkillToTools_body env options) st)) = l.
Proof.
  revert st; induction l as [|toolId l IH]; intros st; [reflexivity|].
  rewrite for_of_body_cons. cbn [events].
  rewrite firstAttempts_app, firstAttempts_body, IH. reflexivity.
Qed.

Lemma safe_for_of (l : list jsstring) :
  safe (for_of l (syncSkillToTools_body env options)).
Proof.
  induction l as [|toolId l IH]; intros st; [reflexivity|].
  rewrite for_of_body_cons. apply IH.
Qed.

End Batch.

(** C5 as first stated fails in its last part: the batch resolves to no
    value, and a declined conflict leaves no console entry either.  Under
    policy [confirm], a run in which every tool is synced and a run in which
    B is in conflict and the user declines complete alike and log alike,
    while B is a target after the first and not after the second. *)
Lemma C5_counterexample :
  let w1 := Scenario.quiet in
  let w2 :=
    {| Scenario.occupied := [lit "B"]; Scenario.broken := [];
       Scenario.materialised := []; Scenario.persisted := [];
       Scenario.answers := [false]; Scenario.unsyncError := None;
       Scenario.persistFails := false; Scenario.trayFails := false |} in
  let r1 :=
    syncSkillToTools Scenario.env (Scenario.batch Policy.confirm)
      (Scenario.start w1 []) in
  let r2 :=
    syncSkillToTools Scenario.env (Scenario.batch Policy.confirm)
      (Scenario.start w2 []) in
  result r1 = result r2 /\
  filter isConsole (events r1) = filter isConsole (events r2) /\
  filter isConsole (events r1) = [] /\
  Scenario.materialised (world (state r1)) = [lit "A"; lit "B"; lit "C"] /\
  Scenario.materialised (world (state r2)) = [lit "A"; lit "C"].
Proof.
  repeat split.
Qed.

(** C5, amended.  A batch sync always completes normally, whatever the
    backend and the user do, and resolves to no value: there is no result
    map.  Every tool of the list gets its first attempt, in the order of the
    list, whatever happened to the tools before it.  A first attempt that
    fails with an error other than a conflict is written to the console and
    nothing else is done for that tool.  The overwriting attempt that
    follows an accepted conflict dialog is the only other call made for a
    tool; when it fails, whatever the error, the error is written to the
    console too and nothing else is done for that tool. *)
Theorem C5_batch_continues_past_errors W (env : Env W)
    (options : SyncSkillToToolsOptions) (st : St W) :
  let r := syncSkillToTools env options st in
  result r = Ok tt /\
  firstAttempts (events r) = selectedTools options /\
  (forall toolId rest st1,
     let r1 := syncSkillToTools_body env options toolId st1 in
     result r1 = Ok tt /\
     events (for_of (toolId :: rest) (syncSkillToTools_body env options) st1)
       = events r1
         ++ events (for_of rest (syncSkillToTools_body env options)
                      (state r1))) /\
  (forall toolId st1 e w1,
     api_syncSkillToTool env (centralPath options) (skillId options) toolId
       (skillName options) false (world st1) = (Throw e, w1) ->
     isTargetExists e = false ->
     syncSkillToTools_body env options toolId st1 =
       {| result := Ok tt; state := withWorld st1 w1;
          events :=
            [firstTry options toolId;
             ConsoleError (lit "Failed to sync to " ++ toolId ++ lit ":")
               e] |}) /\
  (forall toolId st1 e w1 w2 e2 w3,
     onTargetExists options = Policy.confirm ->
     api_syncSkillToTool env (centralPath options) (skillId options) toolId
       (skillName options) false (world st1) = (Throw e, w1) ->
     isTargetExists e = true ->
     user_confirm env targetExistsTitle
       (targetExistsMessage (skillName options)
          (toolLabelOf (allTools options) toolId) (targetPathOf e)) w1
       = (true, w2) ->
     api_syncSkillToTool env (centralPath options) (skillId options) toolId
       (skillName options) true w2 = (Throw e2, w3) ->
     syncSkillToTools_body env options toolId st1 =
       {| result := Ok tt; state := withWorld st1 w3;
          events :=
            [firstTry options toolId;
             targetExistsDialog (skillName options)
               (toolLabelOf (allTools options) toolId) (targetPathOf e);
             ApiSyncSkillToTool (centralPath options) (skillId options)
               toolId (skillName options) true;
             ConsoleError
               (lit "Failed to overwrite sync to " ++ toolId ++ lit ":")
               e2] |}).
Proof.
  intros r. split; [apply safe_for_of|].
  split; [apply firstAttempts_for_of|].
  split; [|split].
  - intros toolId rest st1 r1.
    split; [apply safe_syncSkillToTools_body|].
    rewrite for_of_body_cons. reflexivity.
  - intros toolId st1 e w1 H He. apply body_other_error; assumption.
  - intros toolId st1 e w1 w2 e2 w3 Hp H He Hu Hr.
    pose proof (body_conflict_confirm env options toolId st1 Hp H He) as Hb.
    cbv zeta in Hb. rewrite Hu, Hr in Hb. exact Hb.
Qed.

(** Two runs of C5 in a batch over A, B, C: tool B fails with an
    input/output error; and, under [confirm], B is occupied, the user says
    yes, and the overwriting call is refused. *)
Lemma C5_witness :
  let w :=
    {| Scenario.occupied := []; Scenario.broken := [lit "B"];
       Scenario.materialised := [lit "A"]; Scenario.persisted := [];
       Scenario.answers := []; Scenario.unsyncError := None;
       Scenario.persistFails := false; Scenario.trayFails := false |} in
  let options := Scenario.batch Policy.skip in
  let w' := occupiedWorld [lit "B"] [true] in
  let options' := Scenario.batch Policy.confirm in
  let env' :=
    {| api_syncSkillToTool :=
         fun cp sid t nm ov w0 =>
           if ov then (Throw (lit "permission denied"), w0)
           else Scenario.sync cp sid t nm ov w0;
       api_unsyncSkillFromTool := Scenario.unsync;
       api_reorderSkills := Scenario.reorder;
       appApi_refreshTrayMenu := Scenario.tray;
       useSkills_refresh := useSkills_refresh Scenario.env;
       useSkills_updateSkill := useSkills_updateSkill Scenario.env;
       useSkills_deleteSkill := useSkills_deleteSkill Scenario.env;
       user_confirm := Scenario.answer;
       user_click := user_click Scenario.env;
       isGitError := isGitError Scenario.env;
       formatGitError := formatGitError Scenario.env |} in
  (Scenario.sync (centralPath options) (skillId options) (lit "B")
     (skillName options) false w = (Throw (lit "io error"), w) /\
   isTargetExists (lit "io error") = false /\
   events (syncSkillToTools_body Scenario.env options (lit "B")
             (Scenario.start w [])) =
     [firstTry options (lit "B");
      ConsoleError (lit "Failed to sync to " ++ lit "B" ++ lit ":")
        (lit "io error")]) /\
  (onTargetExists options' = Policy.confirm /\
   isTargetExists (lit "TARGET_EXISTS|/tools/B/skill") = true /\
   filter isConsole
     (events (syncSkillToTools_body env' options' (lit "B")
                (Scenario.start w' []))) =
     [ConsoleError (lit "Failed to overwrite sync to " ++ lit "B" ++ lit ":")
        (lit "permission denied")]).
Proof.
  intros w options w' options' env'. split.
  - split; [reflexivity|]. split; [reflexivity|].
    destruct (C5_batch_continues_past_errors Scenario.env options
                (Scenario.start Scenario.quiet []))
      as [_ [_ [_ [H4 _]]]].
    rewrite (H4 (lit "B") (Scenario.start w []) (lit "io error") w
               eq_refl eq_refl).
    reflexivity.
  - split; [reflexivity|]. split; [reflexivity|].
    destruct (C5_batch_continues_past_errors env' options'
                (Scenario.start Scenario.quiet []))
      as [_ [_ [_ [_ H5]]]].
    rewrite (H5 (lit "B") (Scenario.start w' [])
               (lit "TARGET_EXISTS|/tools/B/skill") w'
               (occupiedWorld [lit "B"] [])
               (lit "permission denied") (occupiedWorld [lit "B"] [])
               eq_refl eq_refl eq_refl eq_refl eq_refl).
    reflexivity.
Defined.






(** C7 fails on the code.  The skill is synced to B and the user switches
    B off; unsync rejects with a string that contains "TARGET_EXISTS|".  The
    shared catch block takes it for a sync conflict: the overwrite dialog is
    shown, and on OK the skill is synced to B again, with overwrite. *)
Theorem C7_unsync_error_prompts :
  let w :=
    {| Scenario.occupied := []; Scenario.broken := [];
       Scenario.materialised := [lit "B"]; Scenario.persisted := [];
       Scenario.answers := [true];
       Scenario.unsyncError := Some (lit "TARGET_EXISTS|/tools/B/skill");
       Scenario.persistFails := false; Scenario.trayFails := false |} in
  let skill := Scenario.mkSkill "s1" ["B"%string] in
  let r :=
    handleToggleTool Scenario.env Scenario.tools skill (lit "B")
      (Scenario.start w [skill]) in
  find (fun t => eqb (SkillTarget.tool t) (lit "B"))
       (ManagedSkill.targets skill) = Some {| SkillTarget.tool := lit "B" |} /\
  events r =
    [SetActionLoading true;
     ApiUnsyncSkillFromTool (lit "s1") (lit "B");
     targetExistsDialog (lit "skill-s1") (lit "Tool B") (lit "/tools/B/skill");
     ApiSyncSkillToTool (lit "/central/s1") (lit "s1") (lit "B")
       (lit "skill-s1") true;
     Refresh; RefreshTrayMenu;
     SetActionLoading false] /\
  existsb isPrompt (events r) = true /\
  Scenario.materialised (world (state r)) = [lit "B"].
Proof.
  repeat split.
Qed.

(** What does hold on the unsync path: the first call is the unsync, and a
    dialog appears only if an error reaches the catch block whose text
    contains the tag. *)
Lemma handleToggleTool_synced_first_call W (env : Env W)
    (tools : list ToolOption.t) (skill : ManagedSkill.t) (toolId : jsstring)
    (target : SkillTarget.t) (st : St W) :
  find (fun t => eqb (SkillTarget.tool t) toolId) (ManagedSkill.targets skill)
    = Some target ->
  exists tl,
    events (handleToggleTool env tools skill toolId st) =
      SetActionLoading true
      :: ApiUnsyncSkillFromTool (ManagedSkill.id skill) toolId :: tl.
Proof.
  intros H. unfold handleToggleTool. rewrite H.
  unfold bind at 1. cbn [setActionLoading result state events app].
  unfold try_finally, try_catch, bind, unsyncSkillFromTool, call.
  cbn [world].
  destruct (api_unsyncSkillFromTool env _ _ (world st)) as [[[]|e] w];
    cbn [result state events app].
  - destruct (result (refresh env _)); cbn [result state events app];
      [destruct (result (refreshTrayMenu env _))|];
      cbn [result state events app]; eexists; reflexivity.
  - eexists; reflexivity.
Qed.

(** C1 as first stated fails: the batch asks with the two-way dialog of
    [confirmTargetOverwrite], which has no overwrite-all answer, and it asks
    again for every conflict.  With B and C occupied and a user who says yes
    to every dialog, the dialog for C is shown after B was overwritten; with
    a user who says yes once, at B, and gives no further answer, C is not
    overwritten at all. *)
Lemma C1_counterexample :
  let world0 (ans : list bool) :=
    {| Scenario.occupied := [lit "B"; lit "C"]; Scenario.broken := [];
       Scenario.materialised := []; Scenario.persisted := [];
       Scenario.answers := ans; Scenario.unsyncError := None;
       Scenario.persistFails := false; Scenario.trayFails := false |} in
  let options := Scenario.batch Policy.confirm in
  let r := syncSkillToTools Scenario.env options
             (Scenario.start (world0 [true; true]) []) in
  let r' := syncSkillToTools Scenario.env options
              (Scenario.start (world0 [true]) []) in
  events r =
    [firstTry options (lit "A");
     firstTry options (lit "B");
     targetExistsDialog (lit "lint") (lit "Tool B") (lit "/tools/B/skill");
     ApiSyncSkillToTool (lit "/central/s1") (lit "s1") (lit "B") (lit "lint")
       true;
     firstTry options (lit "C");
     targetExistsDialog (lit "lint") (lit "Tool C") (lit "/tools/C/skill");
     ApiSyncSkillToTool (lit "/central/s1") (lit "s1") (lit "C") (lit "lint")
       true] /\
  List.length (filter isPrompt (events r)) = 2 /\
  List.length (filter isPrompt (events r')) = 2 /\
  Scenario.materialised (world (state r')) = [lit "A"; lit "B"].
Proof.
  repeat split.
Qed.

(** C1, amended.  Policy [confirm], tools A, B, C, in a run where the
    backend answers TARGET_EXISTS to the first attempt on B and to the first
    attempt on C.  The events of the batch are those of A, then of B, then
    of C.  For B and for C alike: the first attempt is made without
    overwrite, then the two-way dialog for that tool is shown with the path
    taken from its error, and the tool is synced again with overwrite=true
    exactly when the answer to its own dialog is yes.  Nothing answered at B
    spares C its dialog. *)
Theorem C1_confirm_asks_for_every_conflict W (env : Env W)
    (options : SyncSkillToToolsOptions) (A B C eB eC : jsstring) (st : St W)
    (wB wC : W) :
  selectedTools options = [A; B; C] ->
  onTargetExists options = Policy.confirm ->
  let rA := syncSkillToTools_body env options A st in
  let rB := syncSkillToTools_body env options B (state rA) in
  let rC := syncSkillToTools_body env options C (state rB) in
  api_syncSkillToTool env (centralPath options) (skillId options) B
    (skillName options) false (world (state rA)) = (Throw eB, wB) ->
  isTargetExists eB = true ->
  api_syncSkillToTool env (centralPath options) (skillId options) C
    (skillName options) false (world (state rB)) = (Throw eC, wC) ->
  isTargetExists eC = true ->
  let r := syncSkillToTools env options st in
  let dialog (t e : jsstring) :=
    targetExistsDialog (skillName options)
      (toolLabelOf (allTools options) t) (targetPathOf e) in
  let answer (t e : jsstring) (w : W) :=
    fst (user_confirm env targetExistsTitle
           (targetExistsMessage (skillName options)
              (toolLabelOf (allTools options) t) (targetPathOf e)) w) in
  events r = events rA ++ events rB ++ events rC /\
  result r = Ok tt /\
  (exists retry,
     events rB =
       firstTry options B :: dialog B eB
       :: overwriteEvents options B (answer B eB wB) retry) /\
  (exists retry,
     events rC =
       firstTry options C :: dialog C eC
       :: overwriteEvents options C (answer C eC wC) retry).
Proof.
  intros Hl Hp rA rB rC HB HeB HC HeC r dialog answer.
  assert (Hasks : forall t before e w1,
            api_syncSkillToTool env (centralPath options) (skillId options)
              t (skillName options) false (world before) = (Throw e, w1) ->
            isTargetExists e = true ->
            exists retry,
              events (syncSkillToTools_body env options t before) =
                firstTry options t :: dialog t e
                :: overwriteEvents options t (answer t e w1) retry).
  { intros t before e w1 H He.
    pose proof (body_conflict_confirm env options t before Hp H He) as Hb.
    cbv zeta in Hb. unfold answer, dialog.
    destruct (user_confirm env _ _ w1) as [ans w2].
    destruct (api_syncSkillToTool env _ _ t _ true w2) as [retry w3].
    exists retry. rewrite Hb. reflexivity. }
  split; [|split; [|split]].
  - unfold r, syncSkillToTools. rewrite Hl.
    rewrite !for_of_body_cons. cbn [events state for_of ret].
    rewrite app_nil_r. reflexivity.
  - apply safe_for_of.
  - apply Hasks; assumption.
  - apply Hasks; assumption.
Qed.

(** A run of C1: B and C occupied, the user says yes at B and no at C. *)
Lemma C1_witness :
  let w :=
    {| Scenario.occupied := [lit "B"; lit "C"]; Scenario.broken := [];
       Scenario.materialised := []; Scenario.persisted := [];
       Scenario.answers := [true; false]; Scenario.unsyncError := None;
       Scenario.persistFails := false; Scenario.trayFails := false |} in
  let options := Scenario.batch Policy.confirm in
  let st := Scenario.start w [] in
  let rA := syncSkillToTools_body Scenario.env options (lit "A") st in
  let rB := syncSkillToTools_body Scenario.env options (lit "B") (state rA) in
  let rC := syncSkillToTools_body Scenario.env options (lit "C") (state rB) in
  (selectedTools options = [lit "A"; lit "B"; lit "C"] /\
   onTargetExists options = Policy.confirm /\
   fst (Scenario.sync (centralPath options) (skillId options) (lit "B")
          (skillName options) false (world (state rA)))
     = Throw (lit "TARGET_EXISTS|/tools/B/skill") /\
   isTargetExists (lit "TARGET_EXISTS|/tools/B/skill") = true /\
   fst (Scenario.sync (centralPath options) (skillId options) (lit "C")
          (skillName options) false (world (state rB)))
     = Throw (lit "TARGET_EXISTS|/tools/C/skill") /\
   isTargetExists (lit "TARGET_EXISTS|/tools/C/skill") = true) /\
  events (syncSkillToTools Scenario.env options st)
    = events rA ++ events rB ++ events rC.
Proof.
  intros w options st rA rB rC.
  split; [repeat split|].
  exact (proj1 (@C1_confirm_asks_for_every_conflict _ Scenario.env options
                  (lit "A") (lit "B") (lit "C")
                  (lit "TARGET_EXISTS|/tools/B/skill")
                  (lit "TARGET_EXISTS|/tools/C/skill") st _ _
                  eq_refl eq_refl eq_refl eq_refl eq_refl eq_refl)).
Defined.

(* ------------------------------------------------------------------ *)
(** ** Beyond the claims: the error-string helpers *)

Lemma takeWhile_split (f : N -> bool) (s : jsstring) :
  exists post, s = takeWhile f s ++ post.
Proof.
  induction s as [|c s [post IH]]; simpl.
  - exists []; reflexivity.
  - destruct (f c).
    + exists post. simpl. f_equal. exact IH.
    + exists (c :: s). reflexivity.
Qed.

Lemma matchHere_Some (tag s g : jsstring) :
  matchHere tag s = Some g ->
  g <> [] /\ forallb dot g = true /\ exists post, s = tag ++ g ++ post.
Proof.
  unfold matchHere. destruct (stripPrefix tag s) as [rest|] eqn:E;
    [|discriminate].
  apply stripPrefix_Some in E.
  pose proof (takeWhile_forallb dot rest) as Hall.
  destruct (takeWhile_split dot rest) as [post Hpost].
  destruct (takeWhile dot rest) as [|c run] eqn:Er; [discriminate|].
  intros H; inversion H; subst g.
  split; [discriminate|]. split; [exact Hall|].
  exists post. rewrite <- Hpost. exact E.
Qed.

Lemma matchTagDotPlus_Some (tag s g : jsstring) :
  matchTagDotPlus tag s = Some g ->
  g <> [] /\ forallb dot g = true /\
  exists pre post, s = pre ++ tag ++ g ++ post.
Proof.
  induction s as [|c s IH]; simpl.
  - destruct (matchHere tag []) as [g'|] eqn:E; [|discriminate].
    intros H; inversion H; subst g'.
    destruct (matchHere_Some _ _ E) as [H1 [H2 [post H3]]].
    repeat split; auto. exists [], post. exact H3.
  - destruct (matchHere tag (c :: s)) as [g'|] eqn:E.
    + intros H; inversion H; subst g'.
      destruct (matchHere_Some _ _ E) as [H1 [H2 [post H3]]].
      repeat split; auto. exists [], post. exact H3.
    + intros H. destruct (IH H) as [H1 [H2 [pre [post H3]]]].
      repeat split; auto. exists (c :: pre), post. simpl. f_equal. exact H3.
Qed.

Lemma matchTagDotPlus_here (tag s g : jsstring) :
  matchHere tag s = Some g -> matchTagDotPlus tag s = Some g.
Proof. intros H. destruct s; simpl; rewrite H; reflexivity. Qed.

Lemma matchHere_app (tag p : jsstring) :
  p <> [] -> forallb dot p = true -> matchHere tag (tag ++ p) = Some p.
Proof.
  intros Hne Hd. unfold matchHere.
  rewrite stripPrefix_app, (takeWhile_all _ _ Hd).
  destruct p; [contradiction | reflexivity].
Qed.

(** X1.  Whatever [parseTargetExistsError] returns is a usable payload: a
    path it returns is not empty, has no line terminator, occurs in the
    message right behind the tag, and is the path the two handlers
    extract.  It returns null exactly when the message has no tag or the
    handlers would extract the empty path; so a message such as
    "TARGET_EXISTS|" is a conflict for the handlers and null for the
    parser. *)
Theorem X1_parseTargetExistsError_sound (e : jsstring) :
  match parseTargetExistsError e with
  | Some p =>
      p <> [] /\ forallb dot p = true /\
      (exists pre post, e = pre ++ TARGET_EXISTS_TAG ++ p ++ post) /\
      isTargetExists e = true /\ targetPathOf e = p
  | None => isTargetExists e = false \/ targetPathOf e = []
  end.
Proof.
  unfold parseTargetExistsError, isTargetExists, targetPathOf.
  destruct (includes e TARGET_EXISTS_TAG) eqn:Hi; simpl; [|left; reflexivity].
  destruct (matchTagDotPlus TARGET_EXISTS_TAG e) as [g|] eqn:Hm.
  - destruct (matchTagDotPlus_Some _ _ Hm) as [H1 [H2 H3]]. auto.
  - right; reflexivity.
Qed.

(** A run of X1 on each side: a message with a path, and the bare tag. *)
Lemma X1_witness :
  (lit "/a/b" <> [] /\
   targetPathOf (lit "Error: TARGET_EXISTS|/a/b") = lit "/a/b") /\
  (isTargetExists TARGET_EXISTS_TAG = true /\
   parseTargetExistsError TARGET_EXISTS_TAG = None).
Proof.
  split.
  - pose proof (X1_parseTargetExistsError_sound
                  (lit "Error: TARGET_EXISTS|/a/b")) as H.
    change (parseTargetExistsError (lit "Error: TARGET_EXISTS|/a/b"))
      with (Some (lit "/a/b")) in H.
    destruct H as [H1 [_ [_ [_ H5]]]]. split; assumption.
  - split; reflexivity.
Defined.

(** X2.  The wire format of a conflict decodes to what was encoded: for
    every non-empty path without a line terminator (further "|" allowed),
    "TARGET_EXISTS|" followed by the path parses to that path, and the
    handlers classify the message as a conflict with that path. *)
Theorem X2_target_exists_roundtrip (p : jsstring) :
  p <> [] -> forallb dot p = true ->
  parseTargetExistsError (TARGET_EXISTS_TAG ++ p) = Some p /\
  isTargetExists (TARGET_EXISTS_TAG ++ p) = true /\
  targetPathOf (TARGET_EXISTS_TAG ++ p) = p.
Proof.
  intros Hne Hd.
  assert (Hi : includes (TARGET_EXISTS_TAG ++ p) TARGET_EXISTS_TAG = true).
  { apply includes_true. exists [], p. reflexivity. }
  assert (Hm : matchTagDotPlus TARGET_EXISTS_TAG (TARGET_EXISTS_TAG ++ p)
               = Some p).
  { apply matchTagDotPlus_here, matchHere_app; assumption. }
  unfold parseTargetExistsError, isTargetExists, targetPathOf.
  rewrite Hi, Hm. auto.
Qed.

Lemma X2_witness :
  (lit "C:\skills|v2\lint.md" <> [] /\
   forallb dot (lit "C:\skills|v2\lint.md") = true) /\
  parseTargetExistsError (TARGET_EXISTS_TAG ++ lit "C:\skills|v2\lint.md")
    = Some (lit "C:\skills|v2\lint.md").
Proof.
  assert (Hne : lit "C:\skills|v2\lint.md" <> []) by discriminate.
  split; [split; [exact Hne | reflexivity]|].
  exact (proj1 (@X2_target_exists_roundtrip (lit "C:\skills|v2\lint.md")
                  Hne eq_refl)).
Defined.

(** X3.  SKILL_EXISTS errors.  A message that [isSkillExistsError] rejects
    yields the empty name; a message that contains "SKILL_EXISTS|" anywhere
    is recognised; and from "SKILL_EXISTS|" followed by a name without line
    terminator the name is extracted unchanged, the empty name included. *)
Theorem X3_skill_exists_helpers (e n : jsstring) :
  (isSkillExistsError e = false -> extractSkillName e = []) /\
  (forall pre post,
     isSkillExistsError (pre ++ SKILL_EXISTS_TAG ++ post) = true) /\
  (forallb dot n = true -> extractSkillName (SKILL_EXISTS_TAG ++ n) = n).
Proof.
  split; [|split].
  - unfold isSkillExistsError, includes, extractSkillName.
    destruct (indexOf e SKILL_EXISTS_TAG) eqn:E; [discriminate|].
    intros _. rewrite (matchTagDotPlus_None _ _ E). reflexivity.
  - intros pre post. apply includes_true. eauto.
  - intros Hd. unfold extractSkillName.
    destruct n as [|c n'].
    + reflexivity.
    + rewrite (matchTagDotPlus_here _ _
                 (@matchHere_app SKILL_EXISTS_TAG (c :: n')
                    ltac:(discriminate) Hd)).
      reflexivity.
Qed.

Lemma X3_witness :
  (isSkillExistsError (lit "permission denied") = false /\
   forallb dot (lit "my skill") = true) /\
  extractSkillName (lit "permission denied") = [] /\
  extractSkillName (SKILL_EXISTS_TAG ++ lit "my skill") = lit "my skill".
Proof.
  split; [split; reflexivity|].
  split.
  - exact (proj1 (X3_skill_exists_helpers (lit "permission denied") [])
             eq_refl).
  - exact (proj2 (proj2 (X3_skill_exists_helpers [] (lit "my skill")))
             eq_refl).
Defined.

Lemma split_noSep (sep : N) (a : jsstring) :
  forallb (fun c => negb (N.eqb c sep)) a = true -> split sep a = [a].
Proof.
  induction a as [|c a IH]; simpl; [reflexivity|].
  destruct (N.eqb c sep); simpl; [discriminate|].
  intros H. rewrite (IH H). reflexivity.
Qed.

Lemma split_app (sep : N) (a b : jsstring) :
  forallb (fun c => negb (N.eqb c sep)) a = true ->
  split sep (a ++ sep :: b) = a :: split sep b.
Proof.
  induction a as [|c a IH]; simpl.
  - rewrite N.eqb_refl. reflexivity.
  - destruct (N.eqb c sep); simpl; [discriminate|].
    intros H. rewrite (IH H). reflexivity.
Qed.

(** X4.  The fields of a TOOL_NOT_INSTALLED message.  With a tool key and
    a path that contain no "|", "TOOL_NOT_INSTALLED|key|path" gives back
    the key and the path; anything behind a further "|" is dropped, so a
    path that itself contains "|" is cut at its first "|"; and a message
    with no third field, "TOOL_NOT_INSTALLED|key", gives the empty path. *)
Theorem X4_tool_not_installed_fields (key path more : jsstring) :
  noPipe key = true -> noPipe path = true ->
  toolNotInstalledFields (TOOL_NOT_INSTALLED_TAG ++ key ++ [PIPE] ++ path)
    = (key, path) /\
  toolNotInstalledFields
    (TOOL_NOT_INSTALLED_TAG ++ key ++ [PIPE] ++ path ++ [PIPE] ++ more)
    = (key, path) /\
  toolNotInstalledFields (TOOL_NOT_INSTALLED_TAG ++ key) = (key, []) /\
  startsWith (TOOL_NOT_INSTALLED_TAG ++ key ++ [PIPE] ++ path)
    TOOL_NOT_INSTALLED_TAG = true.
Proof.
  intros Hk Hp. unfold noPipe in *.
  assert (Ht : forallb (fun c => negb (N.eqb c PIPE))
                 (lit "TOOL_NOT_INSTALLED") = true) by reflexivity.
  unfold toolNotInstalledFields, nthOrEmpty.
  change TOOL_NOT_INSTALLED_TAG with (lit "TOOL_NOT_INSTALLED" ++ [PIPE]).
  rewrite <- !app_assoc. cbn [app].
  split; [|split; [|split]].
  - rewrite (split_app _ _ _ Ht), (split_app _ _ _ Hk), (split_noSep _ _ Hp).
    reflexivity.
  - rewrite (split_app _ _ _ Ht), (split_app _ _ _ Hk), (split_app _ _ _ Hp).
    reflexivity.
  - rewrite (split_app _ _ _ Ht), (split_noSep _ _ Hk). reflexivity.
  - apply startsWith_true.
    exists (key ++ PIPE :: path). rewrite <- app_assoc. reflexivity.
Qed.

Lemma X4_witness :
  (noPipe (lit "vscode") = true /\ noPipe (lit "/home/u/skills") = true) /\
  toolNotInstalledFields (lit "TOOL_NOT_INSTALLED|vscode|/home/u/skills|x|y")
    = (lit "vscode", lit "/home/u/skills").
Proof.
  split; [split; reflexivity|].
  exact (proj1 (proj2 (@X4_tool_not_installed_fields (lit "vscode")
                         (lit "/home/u/skills") (lit "x|y")
                         eq_refl eq_refl))).
Defined.

Lemma find_Some_In {A} (f : A -> bool) (l : list A) (x : A) :
  find f l = Some x -> In x l /\ f x = true.
Proof.
  induction l as [|y l IH]; simpl; [discriminate|].
  destruct (f y) eqn:E.
  - intros H; inversion H; subst; auto.
  - intros H. destruct (IH H); auto.
Qed.

Lemma find_first {A} (f : A -> bool) (pre : list A) (t : A) (post : list A) :
  (forall u, In u pre -> f u = false) -> f t = true ->
  find f (pre ++ t :: post) = Some t.
Proof.
  intros Hpre Ht. induction pre as [|u pre IH]; simpl.
  - rewrite Ht. reflexivity.
  - rewrite (Hpre u (or_introl eq_refl)). apply IH.
    intros v Hv. apply Hpre. right. exact Hv.
Qed.

Lemma find_none {A} (f : A -> bool) (l : list A) :
  (forall u, In u l -> f u = false) -> find f l = None.
Proof.
  intros H. induction l as [|u l IH]; simpl; [reflexivity|].
  rewrite (H u (or_introl eq_refl)). apply IH.
  intros v Hv. apply H. right. exact Hv.
Qed.

(** X5.  The tool name put into a dialog.  The tool taken is the first of
    the list with the requested id.  When that tool has a non-empty label,
    the name is its label; when its label is empty, and when no tool of the
    list has the id, the name is the id itself.  So for a non-empty id the
    name is never empty.  [showGitError] computes the same name, and without
    a tool list it uses the key. *)
Theorem X5_tool_label_fallback (tools : list ToolOption.t)
    (toolId : jsstring) :
  (forall pre t post,
     tools = pre ++ t :: post ->
     (forall u, In u pre -> ToolOption.id u <> toolId) ->
     ToolOption.id t = toolId ->
     toolLabelOf tools toolId =
       match ToolOption.label t with
       | [] => toolId
       | c :: l => c :: l
       end) /\
  ((forall u, In u tools -> ToolOption.id u <> toolId) ->
   toolLabelOf tools toolId = toolId) /\
  (toolId <> [] -> toolLabelOf tools toolId <> []) /\
  toolNameOf (Some tools) toolId = toolLabelOf tools toolId /\
  toolNameOf None toolId = toolId.
Proof.
  split; [|split; [|split; [|split]]].
  - intros pre t post -> Hpre Ht.
    unfold toolLabelOf, findTool, orElse.
    rewrite (@find_first _ _ pre t post).
    + destruct (ToolOption.label t); reflexivity.
    + intros u Hu. apply eqb_neq. apply Hpre. exact Hu.
    + apply eqb_eq. exact Ht.
  - intros Hnone. unfold toolLabelOf, findTool, orElse.
    rewrite find_none; [reflexivity|].
    intros u Hu. apply eqb_neq. apply Hnone. exact Hu.
  - unfold toolLabelOf, orElse.
    destruct (findTool tools toolId) as [t|]; [|auto].
    destruct (ToolOption.label t); [auto | discriminate].
  - reflexivity.
  - reflexivity.
Qed.

(** Runs of X5: two tools share the id "B"; the first one is taken.  Its
    label is shown when it has one, and the id when its label is empty, even
    though the second tool with that id has a label. *)
Lemma X5_witness :
  let tools1 := [mkTool "A" "Tool A"; mkTool "B" "First B"; mkTool "B" "Second B"] in
  let tools2 := [mkTool "A" "Tool A"; mkTool "B" ""; mkTool "B" "Second B"] in
  ((forall u, In u [mkTool "A" "Tool A"] -> ToolOption.id u <> lit "B") /\
   (forall u, In u tools1 -> ToolOption.id u <> lit "cursor") /\
   lit "B" <> []) /\
  toolLabelOf tools1 (lit "B") = lit "First B" /\
  toolLabelOf tools2 (lit "B") = lit "B" /\
  toolLabelOf tools1 (lit "cursor") = lit "cursor" /\
  toolLabelOf tools2 (lit "B") <> [].
Proof.
  intros tools1 tools2.
  assert (HA : forall u, In u [mkTool "A" "Tool A"] ->
                         ToolOption.id u <> lit "B").
  { intros u [<-|[]]. discriminate. }
  assert (Hc : forall u, In u tools1 -> ToolOption.id u <> lit "cursor").
  { intros u [<-|[<-|[<-|[]]]]; discriminate. }
  assert (Hne : lit "B" <> []) by discriminate.
  split; [split; [exact HA | split; [exact Hc | exact Hne]]|].
  split; [|split; [|split]].
  - exact (proj1 (X5_tool_label_fallback tools1 (lit "B"))
             [mkTool "A" "Tool A"] (mkTool "B" "First B") [mkTool "B" "Second B"]
             eq_refl HA eq_refl).
  - exact (proj1 (X5_tool_label_fallback tools2 (lit "B"))
             [mkTool "A" "Tool A"] (mkTool "B" "") [mkTool "B" "Second B"]
             eq_refl HA eq_refl).
  - exact (proj1 (proj2 (X5_tool_label_fallback tools1 (lit "cursor"))) Hc).
  - exact (proj1 (proj2 (proj2 (X5_tool_label_fallback tools2 (lit "B"))))
             Hne).
Defined.

(** X6.  [showGitError] shows exactly one thing for every message, an error
    dialog or an error toast, never a question; it changes no state and
    does not throw.  The message is shown verbatim in a toast exactly when
    it neither starts with "TOOL_NOT_INSTALLED|" nor is a git error; the tag
    counts only at the very start of the message, and it wins over the git
    test. *)
Theorem X6_showGitError_one_notification W (env : Env W) (e : jsstring)
    (tools : option (list ToolOption.t)) (st : St W) :
  exists ev,
    showGitError env e tools st =
      {| result := Ok tt; state := st; events := [ev] |} /\
    isNotification ev = true /\ isPrompt ev = false /\
    (ev = MessageError (Raw e) <->
       startsWith e TOOL_NOT_INSTALLED_TAG = false /\
       isGitError env e = false) /\
    (startsWith e TOOL_NOT_INSTALLED_TAG = true ->
       ev = ModalError (T "common.error" [])
              [T "skills.errors.toolNotInstalled"
                 [("tool"%string,
                   toolNameOf tools (fst (toolNotInstalledFields e)))];
               T "skills.errors.checkSkillsPath"
                 [("path"%string, snd (toolNotInstalledFields e))]]).
Proof.
  unfold showGitError.
  destruct (startsWith e TOOL_NOT_INSTALLED_TAG) eqn:Es.
  - destruct (toolNotInstalledFields e) as [k p]. eexists.
    split; [reflexivity|]. repeat split; try discriminate.
    intros [H _]; discriminate.
  - destruct (isGitError env e) eqn:Eg; eexists;
      (split; [reflexivity|]); repeat split; try discriminate; auto.
    intros [_ H]; discriminate.
Qed.

Lemma X6_witness :
  startsWith (lit "TOOL_NOT_INSTALLED|cursor|/p") TOOL_NOT_INSTALLED_TAG
    = true /\
  events (showGitError Scenario.env (lit "TOOL_NOT_INSTALLED|cursor|/p")
            (Some Scenario.tools)
            (Scenario.start Scenario.quiet [])) =
    [ModalError (T "common.error" [])
       [T "skills.errors.toolNotInstalled" [("tool"%string, lit "cursor")];
        T "skills.errors.checkSkillsPath" [("path"%string, lit "/p")]]].
Proof.
  split; [reflexivity|].
  destruct (X6_showGitError_one_notification Scenario.env
              (lit "TOOL_NOT_INSTALLED|cursor|/p") (Some Scenario.tools)
              (Scenario.start Scenario.quiet []))
    as [ev [Hrun [_ [_ [_ Htag]]]]].
  rewrite Hrun, (Htag eq_refl). reflexivity.
Defined.

(** X7.  The batch dialog of [confirmBatchOverwrite] is one dialog and the
    promise always resolves.  The overwrite-all button is in the footer
    exactly when more targets are pending, so when none is pending and the
    user clicks a button that is there, the answer is never overwriteAll. *)
Theorem X7_batch_dialog_overwriteAll W (env : Env W) (skillName0 : jsstring)
    (hasMore : bool) (st : St W) :
  let r := confirmBatchOverwrite env skillName0 hasMore st in
  let clicked :=
    fst (user_click env (T "skills.overwrite.title" [])
           (T "skills.overwrite.messageWithName"
              [("name"%string, skillName0)])
           (batchFooter hasMore) (world st)) in
  (In OverwriteAllBtn (batchFooter hasMore) <-> hasMore = true) /\
  (exists c, result r = Ok c) /\
  List.length (events r) = 1 /\
  forallb isPrompt (events r) = true /\
  (In clicked (batchFooter hasMore) -> hasMore = false ->
   result r <> Ok Choice.overwriteAll) /\
  (result r = Ok Choice.overwriteAll <-> clicked = OverwriteAllBtn).
Proof.
  intros r clicked. subst r clicked. unfold confirmBatchOverwrite.
  destruct (user_click env _ _ (batchFooter hasMore) (world st)) as [b w].
  cbn [fst result events].
  split.
  { destruct hasMore; simpl; split; intros H; try discriminate; auto.
    - destruct H as [H|[H|[]]]; discriminate. }
  split; [eexists; reflexivity|].
  split; [reflexivity|]. split; [reflexivity|].
  split.
  - intros Hin Hm. subst hasMore.
    destruct b; simpl in Hin; try discriminate.
    destruct Hin as [H|[H|[]]]; discriminate.
  - destruct b; split; intros H; try discriminate; reflexivity.
Qed.

Lemma X7_witness :
  let r :=
    confirmBatchOverwrite Scenario.env (lit "lint") false
      (Scenario.start Scenario.quiet []) in
  (In OkBtn (batchFooter false) /\ false = false) /\
  result r <> Ok Choice.overwriteAll.
Proof.
  split; [split; [simpl; auto | reflexivity]|].
  destruct (X7_batch_dialog_overwriteAll Scenario.env (lit "lint") false
              (Scenario.start Scenario.quiet []))
    as [_ [_ [_ [_ [H _]]]]].
  exact (H (or_intror (or_introl eq_refl)) eq_refl).
Defined.

(* ------------------------------------------------------------------ *)
(** ** Beyond the claims: the handlers of the hook *)

Lemma callSkills_eq W (e : event)
    (f : list ManagedSkill.t -> W -> outcome unit * list ManagedSkill.t * W)
    (st : St W) (r : outcome unit) (l : list ManagedSkill.t) (w : W) :
  f (skills st) (world st) = (r, l, w) ->
  callSkills e f st =
    {| result := r;
       state := {| world := w; skills := l;
                   deleteSkillId := deleteSkillId st;
                   actionLoading := actionLoading st |};
       events := [e] |}.
Proof. intros H. unfold callSkills. rewrite H. reflexivity. Qed.

(** The shape shared by the three busy actions, as an equation. *)
Lemma busy_unfold W (body : M W unit) (st : St W) :
  let st1 :=
    {| world := world st; skills := skills st;
       deleteSkillId := deleteSkillId st; actionLoading := true |} in
  bind (@setActionLoading W true)
    (fun _ => try_finally body (@setActionLoading W false)) st =
    {| result := result (body st1);
       state := {| world := world (state (body st1));
                   skills := skills (state (body st1));
                   deleteSkillId := deleteSkillId (state (body st1));
                   actionLoading := false |};
       events :=
         SetActionLoading true :: events (body st1)
           ++ [SetActionLoading false] |}.
Proof. reflexivity. Qed.

(** X8.  A toggle whose calls all succeed.  The first call is unsync when
    the skill has a target for the tool and sync without overwrite when it
    has none; then the skill list is refreshed once and the tray menu once,
    in this order; nothing is asked or shown, and the busy flag is down at
    the end. *)
Theorem X8_toggle_success W (env : Env W) (tools : list ToolOption.t)
    (skill : ManagedSkill.t) (toolId : jsstring) (st : St W)
    (w1 w2 w3 : W) (l : list ManagedSkill.t) :
  match find (fun t => eqb (SkillTarget.tool t) toolId)
             (ManagedSkill.targets skill) with
  | Some _ =>
      api_unsyncSkillFromTool env (ManagedSkill.id skill) toolId (world st)
  | None =>
      api_syncSkillToTool env (ManagedSkill.central_path skill)
        (ManagedSkill.id skill) toolId (ManagedSkill.name skill) false
        (world st)
  end = (Ok tt, w1) ->
  useSkills_refresh env (skills st) w1 = (Ok tt, l, w2) ->
  appApi_refreshTrayMenu env w2 = (Ok tt, w3) ->
  handleToggleTool env tools skill toolId st =
    {| result := Ok tt;
       state := {| world := w3; skills := l;
                   deleteSkillId := deleteSkillId st;
                   actionLoading := false |};
       events :=
         [SetActionLoading true; toggleFirstCall skill toolId;
          Refresh; RefreshTrayMenu; SetActionLoading false] |}.
Proof.
  intros H1 H2 H3. unfold handleToggleTool, toggleFirstCall.
  rewrite busy_unfold. cbv zeta.
  match goal with
  | |- context [try_catch ?m ?h ?s] =>
      assert (Hb : try_catch m h s =
                {| result := Ok tt;
                   state := {| world := w3; skills := l;
                               deleteSkillId := deleteSkillId st;
                               actionLoading := true |};
                   events := [toggleFirstCall skill toolId;
                              Refresh; RefreshTrayMenu] |})
  end.
  { unfold toggleFirstCall.
    destruct (find _ (ManagedSkill.targets skill)).
    - erewrite try_catch_ok; [reflexivity|].
      erewrite bind_ok by (apply call_eq; exact H1).
      erewrite bind_ok by (apply callSkills_eq; exact H2).
      unfold refreshTrayMenu. erewrite call_eq by exact H3. reflexivity.
    - erewrite try_catch_ok; [reflexivity|].
      erewrite bind_ok by (apply call_eq; exact H1).
      erewrite bind_ok by (apply callSkills_eq; exact H2).
      unfold refreshTrayMenu. erewrite call_eq by exact H3. reflexivity. }
  unfold toggleFirstCall in Hb. rewrite Hb. reflexivity.
Qed.

Lemma X8_witness :
  let skill := Scenario.mkSkill "s1" ["B"%string] in
  let w := occupiedWorld [] [] in
  let r :=
    handleToggleTool Scenario.env Scenario.tools skill (lit "A")
      (Scenario.start w [skill]) in
  Scenario.materialised (world (state r)) = [lit "A"] /\
  events r =
    [SetActionLoading true; toggleFirstCall skill (lit "A");
     Refresh; RefreshTrayMenu; SetActionLoading false].
Proof.
  intros skill w r.
  pose proof (@X8_toggle_success _ Scenario.env Scenario.tools skill (lit "A")
                (Scenario.start w [skill]) _ _ _ _
                eq_refl eq_refl eq_refl) as H.
  fold r in H. rewrite H. split; reflexivity.
Defined.

(** X9.  A toggle that runs into a conflict which the user declines.  The
    skill has no target for the tool, the sync is refused with a message
    that contains the tag, the user answers no: the dialog is the only thing
    shown, nothing is called after it (no overwrite, no refresh), no error
    is reported, and the busy flag is down at the end. *)
Theorem X9_toggle_conflict_declined W (env : Env W)
    (tools : list ToolOption.t) (skill : ManagedSkill.t)
    (toolId e : jsstring) (st : St W) (w1 w2 : W) :
  find (fun t => eqb (SkillTarget.tool t) toolId)
       (ManagedSkill.targets skill) = None ->
  api_syncSkillToTool env (ManagedSkill.central_path skill)
    (ManagedSkill.id skill) toolId (ManagedSkill.name skill) false (world st)
    = (Throw e, w1) ->
  isTargetExists e = true ->
  user_confirm env targetExistsTitle
    (targetExistsMessage (ManagedSkill.name skill) (toolLabelOf tools toolId)
       (targetPathOf e)) w1 = (false, w2) ->
  handleToggleTool env tools skill toolId st =
    {| result := Ok tt;
       state := {| world := w2; skills := skills st;
                   deleteSkillId := deleteSkillId st;
                   actionLoading := false |};
       events :=
         [SetActionLoading true;
          ApiSyncSkillToTool (ManagedSkill.central_path skill)
            (ManagedSkill.id skill) toolId (ManagedSkill.name skill) false;
          targetExistsDialog (ManagedSkill.name skill)
            (toolLabelOf tools toolId) (targetPathOf e);
          SetActionLoading false] |}.
Proof.
  intros Hf H1 He Hu. unfold handleToggleTool. rewrite Hf, busy_unfold.
  cbv zeta.
  match goal with
  | |- context [try_catch ?m ?h ?s] =>
      assert (Hb : try_catch m h s =
                {| result := Ok tt;
                   state := {| world := w2; skills := skills st;
                               deleteSkillId := deleteSkillId st;
                               actionLoading := true |};
                   events :=
                     [ApiSyncSkillToTool (ManagedSkill.central_path skill)
                        (ManagedSkill.id skill) toolId
                        (ManagedSkill.name skill) false;
                      targetExistsDialog (ManagedSkill.name skill)
                        (toolLabelOf tools toolId) (targetPathOf e)] |})
  end.
  { erewrite try_catch_throw
      by (erewrite bind_throw by (apply call_eq; exact H1); reflexivity).
    unfold handleToggleTool_catch. rewrite He.
    erewrite bind_ok by (apply confirmTargetOverwrite_eq; exact Hu).
    reflexivity. }
  rewrite Hb. reflexivity.
Qed.

Lemma X9_witness :
  let skill := Scenario.mkSkill "s1" [] in
  let w := occupiedWorld [lit "B"] [false] in
  let r :=
    handleToggleTool Scenario.env Scenario.tools skill (lit "B")
      (Scenario.start w [skill]) in
  isTargetExists (lit "TARGET_EXISTS|/tools/B/skill") = true /\
  Scenario.materialised (world (state r)) = [] /\
  List.length (events r) = 4.
Proof.
  intros skill w r. split; [reflexivity|].
  pose proof (@X9_toggle_conflict_declined _ Scenario.env Scenario.tools
                skill (lit "B") (lit "TARGET_EXISTS|/tools/B/skill")
                (Scenario.start w [skill]) _ _
                eq_refl eq_refl eq_refl eq_refl) as H.
  fold r in H. rewrite H. split; reflexivity.
Defined.

(** X10.  A toggle whose overwrite fails.  After a conflict the user says
    yes and the overwriting sync is refused too: its error text is shown as
    it is in an error toast, whatever it says; it is not classified again,
    so there is no second dialog even when it is another TARGET_EXISTS, and
    nothing is refreshed. *)
Theorem X10_toggle_overwrite_fails W (env : Env W)
    (tools : list ToolOption.t) (skill : ManagedSkill.t)
    (toolId e e2 : jsstring) (st : St W) (w1 w2 w3 : W) :
  find (fun t => eqb (SkillTarget.tool t) toolId)
       (ManagedSkill.targets skill) = None ->
  api_syncSkillToTool env (ManagedSkill.central_path skill)
    (ManagedSkill.id skill) toolId (ManagedSkill.name skill) false (world st)
    = (Throw e, w1) ->
  isTargetExists e = true ->
  user_confirm env targetExistsTitle
    (targetExistsMessage (ManagedSkill.name skill) (toolLabelOf tools toolId)
       (targetPathOf e)) w1 = (true, w2) ->
  api_syncSkillToTool env (ManagedSkill.central_path skill)
    (ManagedSkill.id skill) toolId (ManagedSkill.name skill) true w2
    = (Throw e2, w3) ->
  handleToggleTool env tools skill toolId st =
    {| result := Ok tt;
       state := {| world := w3; skills := skills st;
                   deleteSkillId := deleteSkillId st;
                   actionLoading := false |};
       events :=
         [SetActionLoading true;
          ApiSyncSkillToTool (ManagedSkill.central_path skill)
            (ManagedSkill.id skill) toolId (ManagedSkill.name skill) false;
          targetExistsDialog (ManagedSkill.name skill)
            (toolLabelOf tools toolId) (targetPathOf e);
          ApiSyncSkillToTool (ManagedSkill.central_path skill)
            (ManagedSkill.id skill) toolId (ManagedSkill.name skill) true;
          MessageError (Raw e2);
          SetActionLoading false] |}.
Proof.
  intros Hf H1 He Hu H2. unfold handleToggleTool. rewrite Hf, busy_unfold.
  cbv zeta.
  match goal with
  | |- context [try_catch ?m ?h ?s] =>
      assert (Hb : try_catch m h s =
                {| result := Ok tt;
                   state := {| world := w3; skills := skills st;
                               deleteSkillId := deleteSkillId st;
                               actionLoading := true |};
                   events :=
                     [ApiSyncSkillToTool (ManagedSkill.central_path skill)
                        (ManagedSkill.id skill) toolId
                        (ManagedSkill.name skill) false;
                      targetExistsDialog (ManagedSkill.name skill)
                        (toolLabelOf tools toolId) (targetPathOf e);
                      ApiSyncSkillToTool (ManagedSkill.central_path skill)
                        (ManagedSkill.id skill) toolId
                        (ManagedSkill.name skill) true;
                      MessageError (Raw e2)] |})
  end.
  { erewrite try_catch_throw
      by (erewrite bind_throw by (apply call_eq; exact H1); reflexivity).
    unfold handleToggleTool_catch. rewrite He.
    erewrite bind_ok by (apply confirmTargetOverwrite_eq; exact Hu).
    cbv beta iota.
    erewrite try_catch_throw
      by (erewrite bind_throw by (apply call_eq; exact H2); reflexivity).
    reflexivity. }
  rewrite Hb. reflexivity.
Qed.

Lemma X10_witness :
  let skill := Scenario.mkSkill "s1" [] in
  let w :=
    {| Scenario.occupied := [lit "B"]; Scenario.broken := [];
       Scenario.materialised := []; Scenario.persisted := [];
       Scenario.answers := [true]; Scenario.unsyncError := None;
       Scenario.persistFails := false; Scenario.trayFails := false |} in
  let env' :=
    {| api_syncSkillToTool :=
         fun cp sid t nm ov w0 =>
           if ov then (Throw (lit "TARGET_EXISTS|/still/there"), w0)
           else Scenario.sync cp sid t nm ov w0;
       api_unsyncSkillFromTool := Scenario.unsync;
       api_reorderSkills := Scenario.reorder;
       appApi_refreshTrayMenu := Scenario.tray;
       useSkills_refresh := useSkills_refresh Scenario.env;
       useSkills_updateSkill := useSkills_updateSkill Scenario.env;
       useSkills_deleteSkill := useSkills_deleteSkill Scenario.env;
       user_confirm := Scenario.answer;
       user_click := user_click Scenario.env;
       isGitError := isGitError Scenario.env;
       formatGitError := formatGitError Scenario.env |} in
  let r :=
    handleToggleTool env' Scenario.tools skill (lit "B")
      (Scenario.start w [skill]) in
  isTargetExists (lit "TARGET_EXISTS|/tools/B/skill") = true /\
  List.length (filter isPrompt (events r)) = 1 /\
  filter isNotification (events r)
    = [MessageError (Raw (lit "TARGET_EXISTS|/still/there"))].
Proof.
  intros skill w env' r. split; [reflexivity|].
  pose proof (@X10_toggle_overwrite_fails _ env' Scenario.tools
                skill (lit "B") (lit "TARGET_EXISTS|/tools/B/skill")
                (lit "TARGET_EXISTS|/still/there")
                (Scenario.start w [skill]) _ _ _
                eq_refl eq_refl eq_refl eq_refl eq_refl) as H.
  fold r in H. rewrite H. split; reflexivity.
Defined.

(** Events of a [try]/[catch], and counting over them. *)
Lemma try_catch_events W A (m : M W A) (h : jsstring -> M W A) (st : St W) :
  events (try_catch m h st) =
    events (m st) ++
    match result (m st) with
    | Ok _ => []
    | Throw e => events (h e (state (m st)))
    end.
Proof.
  unfold try_catch. destruct (result (m st)); cbn [events];
    [rewrite app_nil_r|]; reflexivity.
Qed.

Lemma bind_events W A B (m : M W A) (k : A -> M W B) (st : St W) :
  events (bind m k st) =
    events (m st) ++
    match result (m st) with
    | Ok a => events (k a (state (m st)))
    | Throw _ => []
    end.
Proof.
  unfold bind. destruct (result (m st)); cbn [events];
    [|rewrite app_nil_r]; reflexivity.
Qed.

Lemma call_events W (e : event) (f : W -> outcome unit * W) (st : St W) :
  events (call e f st) = [e].
Proof. unfold call. destruct (f (world st)). reflexivity. Qed.

Lemma callSkills_events W (e : event) f (st : St W) :
  events (@callSkills W e f st) = [e].
Proof.
  unfold callSkills. destruct (f (skills st) (world st)) as [[? ?] ?].
  reflexivity.
Qed.

Lemma confirmTargetOverwrite_events W (env : Env W) (a b c : jsstring)
    (st : St W) :
  events (confirmTargetOverwrite env a b c st) = [targetExistsDialog a b c].
Proof.
  unfold confirmTargetOverwrite.
  destruct (user_confirm env _ _ (world st)). reflexivity.
Qed.

Lemma confirmTargetOverwrite_result W (env : Env W) (a b c : jsstring)
    (st : St W) :
  result (confirmTargetOverwrite env a b c st) =
    Ok (fst (user_confirm env targetExistsTitle (targetExistsMessage a b c)
               (world st))).
Proof.
  unfold confirmTargetOverwrite.
  destruct (user_confirm env _ _ (world st)). reflexivity.
Qed.

Lemma refresh_events W (env : Env W) (st : St W) :
  events (refresh env st) = [Refresh].
Proof. apply callSkills_events. Qed.

Lemma refreshTrayMenu_events W (env : Env W) (st : St W) :
  events (refreshTrayMenu env st) = [RefreshTrayMenu].
Proof. apply call_events. Qed.

(** The events of "call; refresh; refreshTrayMenu": a prefix of the three
    calls, starting with the first. *)
Lemma call_refresh_tray_events W (env : Env W) (e : event)
    (f : W -> outcome unit * W) (st : St W) :
  let ev :=
    events (bind (call e f)
              (fun _ => bind (refresh env) (fun _ => refreshTrayMenu env))
              st) in
  ev = [e] \/ ev = [e; Refresh] \/ ev = [e; Refresh; RefreshTrayMenu].
Proof.
  cbv zeta. rewrite bind_events, call_events.
  destruct (result (call e f st)); [|left; reflexivity].
  rewrite bind_events, refresh_events.
  destruct (result (refresh env _)); [|right; left; reflexivity].
  rewrite refreshTrayMenu_events. right; right; reflexivity.
Qed.

Lemma showGitError_notification W (env : Env W) (e : jsstring)
    (tools : option (list ToolOption.t)) (st : St W) :
  exists n,
    showGitError env e tools st =
      {| result := Ok tt; state := st; events := [n] |} /\
    isNotification n = true.
Proof.
  unfold showGitError.
  destruct (startsWith e TOOL_NOT_INSTALLED_TAG).
  - destruct (toolNotInstalledFields e). eexists; split; reflexivity.
  - destruct (isGitError env e); eexists; split; reflexivity.
Qed.

(** The events of the catch block of [handleToggleTool]. *)
Lemma handleToggleTool_catch_events W (env : Env W)
    (tools : list ToolOption.t) (skill : ManagedSkill.t)
    (toolId e : jsstring) (st : St W) :
  let ev := events (handleToggleTool_catch env tools skill toolId e st) in
  let dialog :=
    targetExistsDialog (ManagedSkill.name skill) (toolLabelOf tools toolId)
      (targetPathOf e) in
  let ans :=
    fst (user_confirm env targetExistsTitle
           (targetExistsMessage (ManagedSkill.name skill)
              (toolLabelOf tools toolId) (targetPathOf e)) (world st)) in
  let overwriteCall :=
    ApiSyncSkillToTool (ManagedSkill.central_path skill)
      (ManagedSkill.id skill) toolId (ManagedSkill.name skill) true in
  if isTargetExists e then
    if ans then
      exists calls tl,
        ev = dialog :: calls ++ tl /\
        (calls = [overwriteCall] \/ calls = [overwriteCall; Refresh] \/
         calls = [overwriteCall; Refresh; RefreshTrayMenu]) /\
        (tl = [] \/ exists e2, tl = [MessageError (Raw e2)])
    else ev = [dialog]
  else
    exists n, ev = [n] /\ isNotification n = true.
Proof.
  cbv zeta. unfold handleToggleTool_catch.
  destruct (isTargetExists e).
  - rewrite bind_events, confirmTargetOverwrite_events,
      confirmTargetOverwrite_result.
    destruct (fst (user_confirm env _ _ (world st))); [|reflexivity].
    rewrite try_catch_events.
    match goal with
    | |- context [events (bind (syncSkillToTool ?a ?b ?c ?d ?e ?o) ?k ?s)] =>
        pose proof (call_refresh_tray_events a
                      (ApiSyncSkillToTool b c d e o)
                      (api_syncSkillToTool a b c d e o) s) as Hc;
        cbv zeta in Hc;
        change (bind (call (ApiSyncSkillToTool b c d e o)
                        (api_syncSkillToTool a b c d e o)) k s)
          with (bind (syncSkillToTool a b c d e o) k s) in Hc;
        set (calls := events (bind (syncSkillToTool a b c d e o) k s)) in *;
        set (res := result (bind (syncSkillToTool a b c d e o) k s))
    end.
    exists calls.
    destruct res as [[]|e2].
    + exists []. split; [reflexivity|]. split; [exact Hc | left; reflexivity].
    + exists [MessageError (Raw e2)]. split; [reflexivity|].
      split; [exact Hc | right; exists e2; reflexivity].
  - destruct (showGitError_notification env e (Some tools) st)
      as [n [Hn Hnot]].
    exists n. rewrite Hn. auto.
Qed.

Lemma filter_length_le {A} (f : A -> bool) (l : list A) :
  List.length (filter f l) <= List.length l.
Proof.
  induction l as [|x l IH]; simpl; [lia|]. destruct (f x); simpl; lia.
Qed.

(** The events of one toggle: the flag up, a prefix of the three calls of
    the [try] block, the catch block if one of them threw, the flag down. *)
Lemma handleToggleTool_events W (env : Env W) (tools : list ToolOption.t)
    (skill : ManagedSkill.t) (toolId : jsstring) (st : St W) :
  exists pre (res : outcome unit) st2,
    events (handleToggleTool env tools skill toolId st) =
      SetActionLoading true
      :: (pre ++
          match res with
          | Ok _ => []
          | Throw e =>
              events (handleToggleTool_catch env tools skill toolId e st2)
          end) ++ [SetActionLoading false] /\
    (pre = [toggleFirstCall skill toolId] \/
     pre = [toggleFirstCall skill toolId; Refresh] \/
     pre = [toggleFirstCall skill toolId; Refresh; RefreshTrayMenu]).
Proof.
  unfold handleToggleTool. rewrite busy_unfold. cbv zeta. cbn [events].
  rewrite try_catch_events. unfold toggleFirstCall.
  match goal with
  | |- context [events (bind ?first ?k ?s)] =>
      exists (events (bind first k s)), (result (bind first k s)),
             (state (bind first k s))
  end.
  split; [reflexivity|].
  destruct (find _ (ManagedSkill.targets skill)).
  - apply (call_refresh_tray_events env
             (ApiUnsyncSkillFromTool (ManagedSkill.id skill) toolId)).
  - apply (call_refresh_tray_events env
             (ApiSyncSkillToTool (ManagedSkill.central_path skill)
                (ManagedSkill.id skill) toolId (ManagedSkill.name skill)
                false)).
Qed.

Lemma toggleFirstCall_plain (skill : ManagedSkill.t) (toolId : jsstring) :
  isPrompt (toggleFirstCall skill toolId) = false /\
  isOverwriteCall (toggleFirstCall skill toolId) = false /\
  isNotification (toggleFirstCall skill toolId) = false.
Proof.
  unfold toggleFirstCall. destruct (find _ _); repeat split.
Qed.

Lemma overwriteFollowsPrompt_spec (b : bool) (l pre post : list event)
    (e : event) :
  overwriteFollowsPrompt b l = true ->
  l = pre ++ e :: post ->
  isOverwriteCall e = true ->
  (pre = [] /\ b = true) \/
  exists pre0 d, pre = pre0 ++ [d] /\ isPrompt d = true.
Proof.
  revert b l. induction pre as [|x pre IH]; intros b l H -> He.
  - left. split; [reflexivity|]. simpl in H. rewrite He in H.
    apply andb_true_iff in H. tauto.
  - right. simpl in H. apply andb_true_iff in H. destruct H as [_ H].
    destruct (IH _ _ H eq_refl He) as [[-> Hx] | [pre0 [d [-> Hd]]]].
    + exists [], x. split; [reflexivity | exact Hx].
    + exists (x :: pre0), d. split; [reflexivity | exact Hd].
Qed.

(** In a toggle every call with overwrite stands directly behind the
    dialog. *)
Lemma handleToggleTool_overwriteFollowsPrompt W (env : Env W)
    (tools : list ToolOption.t) (skill : ManagedSkill.t) (toolId : jsstring)
    (st : St W) :
  overwriteFollowsPrompt false
    (events (handleToggleTool env tools skill toolId st)) = true.
Proof.
  destruct (handleToggleTool_events env tools skill toolId st)
    as [pre [res [st2 [-> Hpre]]]].
  unfold toggleFirstCall in Hpre.
  destruct res as [[]|e].
  - destruct (find _ (ManagedSkill.targets skill));
      destruct Hpre as [-> | [-> | ->]]; reflexivity.
  - pose proof (handleToggleTool_catch_events env tools skill toolId e st2)
      as Hc.
    cbv zeta in Hc.
    destruct (isTargetExists e).
    + destruct (fst (user_confirm env _ _ (world st2))).
      * destruct Hc as [calls [tl [-> [Hcalls Htl]]]].
        destruct (find _ (ManagedSkill.targets skill));
          destruct Hpre as [-> | [-> | ->]];
          destruct Hcalls as [-> | [-> | ->]];
          destruct Htl as [-> | [e2 ->]]; reflexivity.
      * rewrite Hc.
        destruct (find _ (ManagedSkill.targets skill));
          destruct Hpre as [-> | [-> | ->]]; reflexivity.
    + destruct Hc as [n [-> Hn]].
      destruct n; try discriminate;
        destruct (find _ (ManagedSkill.targets skill));
        destruct Hpre as [-> | [-> | ->]]; reflexivity.
Qed.

(** X11.  Whatever the backend and the user do, one toggle shows at most
    one conflict dialog and reports at most one error, and it asks the
    backend to overwrite at most once and only after having shown the
    dialog: wherever a call with overwrite=true stands in the events of the
    toggle, the event directly before it is the dialog. *)
Theorem X11_toggle_bounds W (env : Env W) (tools : list ToolOption.t)
    (skill : ManagedSkill.t) (toolId : jsstring) (st : St W) :
  let ev := events (handleToggleTool env tools skill toolId st) in
  List.length (filter isPrompt ev) <= 1 /\
  List.length (filter isOverwriteCall ev)
    <= List.length (filter isPrompt ev) /\
  List.length (filter isNotification ev) <= 1 /\
  (forall pre e post,
     ev = pre ++ e :: post -> isOverwriteCall e = true ->
     exists pre0 d, pre = pre0 ++ [d] /\ isPrompt d = true).
Proof.
  intros ev.
  assert (Hord : forall pre e post,
            ev = pre ++ e :: post -> isOverwriteCall e = true ->
            exists pre0 d, pre = pre0 ++ [d] /\ isPrompt d = true).
  { intros pre e post H He.
    destruct (@overwriteFollowsPrompt_spec false ev pre post e
                (handleToggleTool_overwriteFollowsPrompt env tools skill
                   toolId st) H He) as [[_ F] | X];
      [discriminate F | exact X]. }
  assert (Hcount :
            List.length (filter isPrompt ev) <= 1 /\
            List.length (filter isOverwriteCall ev)
              <= List.length (filter isPrompt ev) /\
            List.length (filter isNotification ev) <= 1).
  { clear Hord. subst ev.
    destruct (handleToggleTool_events env tools skill toolId st)
      as [pre [res [st2 [-> Hpre]]]].
    destruct (toggleFirstCall_plain skill toolId) as [F1 [F2 F3]].
    assert (P : filter isPrompt pre = [] /\ filter isOverwriteCall pre = [] /\
                filter isNotification pre = []).
    { destruct Hpre as [-> | [-> | ->]]; cbn; rewrite F1, F2, F3;
        repeat split. }
    destruct P as [P1 [P2 P3]].
    cbn [filter isPrompt isOverwriteCall isNotification].
    rewrite !filter_app, !length_app, P1, P2, P3.
    cbn [filter isPrompt isOverwriteCall isNotification List.length app].
    destruct res as [[]|e]; [cbn; lia|].
    pose proof (handleToggleTool_catch_events env tools skill toolId e st2) as Hc.
    cbv zeta in Hc.
    destruct (isTargetExists e).
    - destruct (fst (user_confirm env _ _ (world st2))).
      + destruct Hc as [calls [tl [-> [Hcalls Htl]]]].
        destruct Hcalls as [-> | [-> | ->]]; destruct Htl as [-> | [e2 ->]];
          cbn; lia.
      + rewrite Hc. cbn. lia.
    - destruct Hc as [n [-> Hn]]. cbn. rewrite Hn.
      destruct n; try discriminate; cbn; lia. }
  destruct Hcount as [H1 [H2 H3]]. auto.
Qed.

(** A run of X11: the sync to B is refused with a conflict, the user says
    yes, the overwrite goes through. *)
Lemma X11_witness :
  let skill := Scenario.mkSkill "s1" [] in
  let ev :=
    events (handleToggleTool Scenario.env Scenario.tools skill (lit "B")
              (Scenario.start (occupiedWorld [lit "B"] [true]) [skill])) in
  let sync (ov : bool) :=
    ApiSyncSkillToTool (lit "/central/s1") (lit "s1") (lit "B")
      (lit "skill-s1") ov in
  let dialog :=
    targetExistsDialog (lit "skill-s1") (lit "Tool B")
      (lit "/tools/B/skill") in
  (ev = [SetActionLoading true; sync false; dialog] ++ sync true
          :: [Refresh; RefreshTrayMenu; SetActionLoading false] /\
   isOverwriteCall (sync true) = true) /\
  exists pre0 d,
    [SetActionLoading true; sync false; dialog] = pre0 ++ [d] /\
    isPrompt d = true.
Proof.
  intros skill ev sync dialog.
  split; [split; reflexivity|].
  destruct (X11_toggle_bounds Scenario.env Scenario.tools skill (lit "B")
              (Scenario.start (occupiedWorld [lit "B"] [true]) [skill]))
    as [_ [_ [_ H]]].
  exact (H [SetActionLoading true; sync false; dialog] (sync true)
           [Refresh; RefreshTrayMenu; SetActionLoading false]
           eq_refl eq_refl).
Defined.

(** The events of the loop body for one tool, in all its cases. *)
Lemma syncSkillToTools_body_shape W (env : Env W)
    (options : SyncSkillToToolsOptions) (toolId : jsstring) (st : St W) :
  exists w tl,
    syncSkillToTools_body env options toolId st =
      {| result := Ok tt; state := withWorld st w;
         events := firstTry options toolId :: tl |} /\
    (tl = [] \/
     (exists m e, tl = [ConsoleError m e]) \/
     (onTargetExists options = Policy.skip /\ exists m, tl = [ConsoleLog m]) \/
     (onTargetExists options = Policy.confirm /\
      exists e w1 retry,
        tl =
          targetExistsDialog (skillName options)
            (toolLabelOf (allTools options) toolId) (targetPathOf e)
          :: overwriteEvents options toolId
               (fst (user_confirm env targetExistsTitle
                       (targetExistsMessage (skillName options)
                          (toolLabelOf (allTools options) toolId)
                          (targetPathOf e)) w1))
               retry)).
Proof.
  destruct (api_syncSkillToTool env (centralPath options) (skillId options)
              toolId (skillName options) false (world st))
    as [[[]|e] w1] eqn:H.
  - exists w1, []. split; [apply body_success; exact H | auto].
  - destruct (isTargetExists e) eqn:He.
    + destruct (onTargetExists options) eqn:Hp.
      * pose proof (body_conflict_confirm env options toolId st Hp H He) as Hb.
        cbv zeta in Hb.
        destruct (user_confirm env _ _ w1) as [ans w2] eqn:Eu.
        destruct (api_syncSkillToTool env _ _ toolId _ true w2)
          as [retry w3].
        exists (if ans then w3 else w2). eexists. split; [exact Hb|].
        right; right; right. split; [reflexivity|].
        exists e, w1, retry. rewrite Eu. reflexivity.
      * eexists; eexists. split; [eapply body_conflict_skip; eassumption|].
        right; right; left. split; [reflexivity|]. eexists; reflexivity.
    + eexists; eexists. split; [eapply body_other_error; eassumption|].
      right; left. eexists; eexists; reflexivity.
Qed.

(** X12.  Nothing is overwritten without a yes.  With a user who answers
    no to every dialog, neither a toggle nor a batch, under either policy
    and whatever the backend does, ever calls the backend with
    overwrite=true. *)
Theorem X12_no_overwrite_without_consent W (env : Env W) :
  (forall title content w, fst (user_confirm env title content w) = false) ->
  (forall tools skill toolId st,
     existsb isOverwriteCall
       (events (handleToggleTool env tools skill toolId st)) = false) /\
  (forall options st,
     existsb isOverwriteCall (events (syncSkillToTools env options st))
       = false).
Proof.
  intros Hdec. split.
  - intros tools skill toolId st.
    destruct (handleToggleTool_events env tools skill toolId st)
      as [pre [res [st2 [-> Hpre]]]].
    destruct (toggleFirstCall_plain skill toolId) as [_ [F2 _]].
    cbn [existsb isOverwriteCall]. rewrite !existsb_app.
    assert (P : existsb isOverwriteCall pre = false).
    { destruct Hpre as [-> | [-> | ->]]; cbn; rewrite F2; reflexivity. }
    rewrite P. cbn [existsb isOverwriteCall orb].
    rewrite orb_false_r.
    destruct res as [[]|e]; [reflexivity|].
    pose proof (handleToggleTool_catch_events env tools skill toolId e st2)
      as Hc.
    cbv zeta in Hc. rewrite Hdec in Hc.
    destruct (isTargetExists e).
    + rewrite Hc. reflexivity.
    + destruct Hc as [n [-> Hn]]. cbn.
      destruct n; try discriminate; reflexivity.
  - intros options st. unfold syncSkillToTools.
    revert st. induction (selectedTools options) as [|toolId l IH];
      intros st; [reflexivity|].
    rewrite for_of_body_cons. cbn [events]. rewrite existsb_app, IH.
    destruct (syncSkillToTools_body_shape env options toolId st)
      as [w [tl [-> Htl]]].
    cbn [events existsb isOverwriteCall firstTry orb].
    rewrite orb_false_r.
    destruct Htl as [-> | [[m [e ->]] | [[_ [m ->]] | [_ [e [w1 [retry ->]]]]]]];
      try reflexivity.
    rewrite Hdec. reflexivity.
Qed.

Lemma X12_witness :
  let r :=
    syncSkillToTools decliningEnv (Scenario.batch Policy.confirm)
      (Scenario.start (occupiedWorld [lit "B"; lit "C"] []) []) in
  (forall title content w,
     fst (user_confirm decliningEnv title content w) = false) /\
  existsb isOverwriteCall (events r) = false.
Proof.
  intros r.
  assert (Hdec : forall title content w,
            fst (user_confirm decliningEnv title content w) = false)
    by reflexivity.
  split; [exact Hdec|].
  exact (proj2 (X12_no_overwrite_without_consent decliningEnv Hdec)
           (Scenario.batch Policy.confirm)
           (Scenario.start (occupiedWorld [lit "B"; lit "C"] []) [])).
Defined.

(* ------------------------------------------------------------------ *)
(** ** Beyond the claims: the batch *)

(** X13.  Under policy [skip] the batch is silent and does exactly one
    thing per tool: whatever the backend answers, the calls that reach the
    backend are the first attempts for the selected tools, one each and in
    the order of the list; no dialog is shown and overwrite is never
    requested. *)
Theorem X13_skip_batch_calls W (env : Env W)
    (options : SyncSkillToToolsOptions) (st : St W) :
  onTargetExists options = Policy.skip ->
  let ev := events (syncSkillToTools env options st) in
  filter isBackendCall ev = map (firstTry options) (selectedTools options) /\
  existsb isPrompt ev = false /\
  existsb isOverwriteCall ev = false.
Proof.
  intros Hp. cbv zeta. unfold syncSkillToTools.
  revert st. induction (selectedTools options) as [|toolId l IH];
    intros st; [repeat split|].
  rewrite for_of_body_cons. cbn [events].
  rewrite filter_app, !existsb_app.
  destruct (IH (state (syncSkillToTools_body env options toolId st)))
    as [I1 [I2 I3]].
  rewrite I1, I2, I3.
  destruct (syncSkillToTools_body_shape env options toolId st)
    as [w [tl [-> Htl]]].
  cbn [events map].
  destruct Htl as [-> | [[m [e ->]] | [[_ [m ->]] | [Hc _]]]];
    try (repeat split; reflexivity).
  rewrite Hp in Hc. discriminate.
Qed.

Lemma X13_witness :
  let options := Scenario.batch Policy.skip in
  let w :=
    {| Scenario.occupied := [lit "B"]; Scenario.broken := [lit "A"];
       Scenario.materialised := []; Scenario.persisted := [];
       Scenario.answers := [true; true]; Scenario.unsyncError := None;
       Scenario.persistFails := false; Scenario.trayFails := false |} in
  let r := syncSkillToTools Scenario.env options (Scenario.start w []) in
  onTargetExists options = Policy.skip /\
  filter isBackendCall (events r)
    = [firstTry options (lit "A"); firstTry options (lit "B");
       firstTry options (lit "C")] /\
  Scenario.materialised (world (state r)) = [lit "C"].
Proof.
  intros options w r. split; [reflexivity|].
  split; [|reflexivity].
  exact (proj1 (@X13_skip_batch_calls _ Scenario.env options
                  (Scenario.start w []) eq_refl)).
Defined.

(** X14.  What a batch never does, under either policy and whatever the
    backend and the user do.  It leaves the skill list, the delete target
    and the busy flag as they were; it only calls sync, shows conflict
    dialogs and writes to the console (no refresh of the list, no refresh of
    the tray menu, no error shown to the user); it shows at most one dialog
    per selected tool and requests overwrite at most as often as it showed a
    dialog. *)
Theorem X14_batch_frame_and_bounds W (env : Env W)
    (options : SyncSkillToToolsOptions) (st : St W) :
  let r := syncSkillToTools env options st in
  skills (state r) = skills st /\
  deleteSkillId (state r) = deleteSkillId st /\
  actionLoading (state r) = actionLoading st /\
  forallb isBatchEvent (events r) = true /\
  List.length (filter isPrompt (events r))
    <= List.length (selectedTools options) /\
  List.length (filter isOverwriteCall (events r))
    <= List.length (filter isPrompt (events r)).
Proof.
  cbv zeta. unfold syncSkillToTools.
  revert st. induction (selectedTools options) as [|toolId l IH];
    intros st; [cbn; repeat split; lia|].
  rewrite for_of_body_cons. cbn [events state].
  destruct (IH (state (syncSkillToTools_body env options toolId st)))
    as [I1 [I2 [I3 [I4 [I5 I6]]]]].
  rewrite I1, I2, I3, forallb_app, I4, !filter_app, !length_app.
  set (rest := events (for_of l (syncSkillToTools_body env options)
                         (state (syncSkillToTools_body env options toolId st))))
    in *.
  clearbody rest. clear I1 I2 I3 I4 IH.
  destruct (syncSkillToTools_body_shape env options toolId st)
    as [w [tl [-> Htl]]].
  cbn [events state withWorld skills deleteSkillId actionLoading].
  destruct Htl as [-> | [[m [e ->]] | [[_ [m ->]] | [_ [e [w1 [retry ->]]]]]]];
    try (cbn; repeat split; lia).
  destruct (fst (user_confirm env _ _ w1)); [destruct retry|];
    cbn; repeat split; lia.
Qed.

(* ------------------------------------------------------------------ *)
(** ** Beyond the claims: update, delete, reorder *)

(** X15.  [handleUpdate] makes one call, [updateSkill], and nothing else
    reaches the backend: the tray menu is not refreshed.  When the call
    succeeds nothing is shown; when it fails exactly one error is shown, the
    one [showGitError] gives for the message.  No question is asked, the
    handler completes normally, and the busy flag is down at the end. *)
Theorem X15_handleUpdate_calls W (env : Env W) (tools : list ToolOption.t)
    (skill : ManagedSkill.t) (st : St W) :
  let r := handleUpdate env tools skill st in
  let call := useSkills_updateSkill env skill (skills st) (world st) in
  result r = Ok tt /\
  skills (state r) = snd (fst call) /\
  world (state r) = snd call /\
  actionLoading (state r) = false /\
  filter isBackendCall (events r) = [UpdateSkill skill] /\
  existsb isPrompt (events r) = false /\
  match fst (fst call) with
  | Ok _ =>
      events r =
        [SetActionLoading true; UpdateSkill skill; SetActionLoading false]
  | Throw e =>
      exists n,
        isNotification n = true /\
        events (showGitError env e (Some tools) st) = [n] /\
        events r =
          [SetActionLoading true; UpdateSkill skill; n;
           SetActionLoading false]
  end.
Proof.
  cbv zeta. unfold handleUpdate. rewrite busy_unfold. cbv zeta.
  unfold updateSkill.
  destruct (useSkills_updateSkill env skill (skills st) (world st))
    as [[p l] w] eqn:Hu.
  cbn [fst snd].
  destruct p as [[]|e].
  - erewrite try_catch_ok by (apply callSkills_eq; exact Hu).
    repeat split.
  - erewrite try_catch_throw by (apply callSkills_eq; exact Hu).
    match goal with
    | |- context [showGitError env e (Some tools) ?s] =>
        destruct (showGitError_notification env e (Some tools) s)
          as [n [Hn Hnot]];
        destruct (showGitError_notification env e (Some tools) st)
          as [n' [Hn' _]]
    end.
    assert (n' = n).
    { unfold showGitError in Hn, Hn'.
      destruct (startsWith e TOOL_NOT_INSTALLED_TAG);
        [destruct (toolNotInstalledFields e)|destruct (isGitError env e)];
        inversion Hn; inversion Hn'; congruence. }
    subst n'. rewrite Hn. cbn [result state events world skills
                                 deleteSkillId actionLoading app].
    assert (B : isBackendCall n = false /\ isPrompt n = false)
      by (destruct n; try discriminate; split; reflexivity).
    destruct B as [B1 B2].
    repeat split.
    + cbn. rewrite B1. reflexivity.
    + cbn. rewrite B2. reflexivity.
    + exists n. rewrite Hn'. repeat split. exact Hnot.
Qed.

(** X16.  [confirmDelete] with a delete target recorded.  The target is
    cleared exactly when [deleteSkill] succeeded, and the tray menu is
    refreshed only then.  When [deleteSkill] fails, the target stays
    recorded, one error is shown and the tray is left alone.  When the
    deletion succeeded but the tray refresh fails, the skill is deleted, the
    target is cleared, and an error is shown all the same. *)
Theorem X16_confirmDelete_outcomes W (env : Env W)
    (tools : list ToolOption.t) (c : N) (i : jsstring) (st : St W) :
  let r := confirmDelete env tools (Some (c :: i)) st in
  let del := useSkills_deleteSkill env (c :: i) (skills st) (world st) in
  match fst (fst del) with
  | Ok _ =>
      deleteSkillId (state r) = None /\
      skills (state r) = snd (fst del) /\
      match fst (appApi_refreshTrayMenu env (snd del)) with
      | Ok _ =>
          events r =
            [SetActionLoading true; DeleteSkill (c :: i);
             SetDeleteSkillId None; RefreshTrayMenu; SetActionLoading false]
      | Throw _ =>
          exists n,
            isNotification n = true /\
            events r =
              [SetActionLoading true; DeleteSkill (c :: i);
               SetDeleteSkillId None; RefreshTrayMenu; n;
               SetActionLoading false]
      end
  | Throw _ =>
      deleteSkillId (state r) = deleteSkillId st /\
      exists n,
        isNotification n = true /\
        events r =
          [SetActionLoading true; DeleteSkill (c :: i); n;
           SetActionLoading false]
  end.
Proof.
  cbv zeta. unfold confirmDelete. cbn [truthy]. rewrite busy_unfold.
  cbv zeta.
  destruct (useSkills_deleteSkill env (c :: i) (skills st) (world st))
    as [[p l] w] eqn:Hd.
  cbn [fst snd].
  unfold try_catch, bind, deleteSkill, callSkills, refreshTrayMenu, call,
    setDeleteSkillId.
  cbn [world skills deleteSkillId actionLoading]. rewrite Hd.
  cbn [result state events world skills deleteSkillId actionLoading].
  destruct p as [[]|e];
    cbn [result state events world skills deleteSkillId actionLoading app].
  - destruct (appApi_refreshTrayMenu env w) as [q w2] eqn:Ht. cbn [fst].
    cbn [result state events world skills deleteSkillId actionLoading app].
    destruct q as [[]|e2];
      cbn [result state events world skills deleteSkillId actionLoading app].
    + repeat split.
    + match goal with
      | |- context [showGitError env e2 (Some tools) ?s] =>
          destruct (showGitError_notification env e2 (Some tools) s)
            as [n [Hn Hnot]]
      end.
      rewrite Hn. repeat split. exists n. split; [exact Hnot | reflexivity].
  - match goal with
    | |- context [showGitError env e (Some tools) ?s] =>
        destruct (showGitError_notification env e (Some tools) s)
          as [n [Hn Hnot]]
    end.
    rewrite Hn. split; [reflexivity|].
    exists n. split; [exact Hnot | reflexivity].
Qed.

(** X17.  Deleting is staged.  [handleDelete] only records the id: its
    single effect is the state update, and no call is made.  In the next
    render the hook exposes that id; for a non-empty id [skillToDelete] is
    the first skill of the list with it, and [confirmDelete] raises the busy
    flag and calls [deleteSkill] with exactly that id.  An empty id is
    recorded too but counts as no target: no skill is offered and
    [confirmDelete] does nothing.  After [setDeleteSkillId(null)] (cancel),
    [confirmDelete] does nothing either. *)
Theorem X17_delete_is_staged W (env : Env W) (tools : list ToolOption.t)
    (i : jsstring) (st : St W) :
  let r1 := @handleDelete W i st in
  let st1 := state r1 in
  let hook := useSkillActions env tools st1 in
  events r1 = [SetDeleteSkillId (Some i)] /\
  world st1 = world st /\ skills st1 = skills st /\
  res_deleteSkillId hook = Some i /\
  match i with
  | [] =>
      res_skillToDelete hook = None /\
      res_confirmDelete hook st1 = idle tt st1
  | _ :: _ =>
      res_skillToDelete hook =
        find (fun s => eqb (ManagedSkill.id s) i) (skills st) /\
      exists tl,
        events (res_confirmDelete hook st1) =
          SetActionLoading true :: DeleteSkill i :: tl
  end /\
  let st2 := state (res_setDeleteSkillId hook None st1) in
  res_confirmDelete (useSkillActions env tools st2) st2 = idle tt st2.
Proof.
  cbv zeta. cbn [handleDelete setDeleteSkillId useSkillActions state events
                 world skills deleteSkillId res_deleteSkillId
                 res_skillToDelete res_confirmDelete res_setDeleteSkillId].
  split; [reflexivity|]. split; [reflexivity|]. split; [reflexivity|].
  split; [reflexivity|]. split; [|reflexivity].
  destruct i as [|c i].
  - split; reflexivity.
  - split; [reflexivity|].
    eexists.
    unfold confirmDelete. cbn [truthy]. rewrite busy_unfold. cbv zeta.
    cbn [events]. rewrite try_catch_events, bind_events.
    unfold deleteSkill at 1. rewrite callSkills_events.
    cbn [app]. reflexivity.
Qed.

Lemma nth_error_split_at {A} (l : list A) (i : nat) (x : A) :
  nth_error l i = Some x -> l = firstn i l ++ x :: skipn (S i) l.
Proof.
  revert i; induction l as [|y l IH]; intros [|i]; simpl; try discriminate.
  - intros H; inversion H; reflexivity.
  - intros H. f_equal. apply IH. exact H.
Qed.

Lemma arrayMove_Permutation {A} (l : list A) (from to : nat) :
  Permutation (arrayMove l from to) l.
Proof.
  unfold arrayMove. destruct (nth_error l from) as [x|] eqn:E;
    [|apply Permutation_refl].
  unfold insertAt, removeAt.
  pose proof (nth_error_split_at _ _ E) as Hl.
  set (l' := firstn from l ++ skipn (S from) l).
  apply Permutation_trans with (x :: l').
  - apply Permutation_sym.
    rewrite <- (firstn_skipn to l') at 1. apply Permutation_middle.
  - unfold l'. eapply Permutation_trans; [apply Permutation_middle|].
    rewrite <- Hl. apply Permutation_refl.
Qed.

Lemma arrayMove_nth_error {A} (l : list A) (from to : nat) :
  from < List.length l -> to < List.length l ->
  nth_error (arrayMove l from to) to = nth_error l from.
Proof.
  intros Hf Ht. unfold arrayMove.
  destruct (nth_error l from) as [x|] eqn:E.
  - unfold insertAt, removeAt.
    assert (Hlen : List.length (firstn to (firstn from l ++ skipn (S from) l))
                   = to).
    { rewrite length_firstn, length_app, length_firstn, length_skipn. lia. }
    rewrite nth_error_app2 by lia. rewrite Hlen, Nat.sub_diag. reflexivity.
  - apply nth_error_None in E. lia.
Qed.

Lemma findIndex_lt {A} (f : A -> bool) (l : list A) (i : nat) :
  findIndex f l = Some i -> i < List.length l.
Proof.
  intros H. apply findIndex_Some in H. destruct H as [x [Hx _]].
  apply nth_error_Some. congruence.
Qed.

(** X18.  A reorder never loses or duplicates a skill.  Whatever is
    dragged where and whatever the backend does, every list the handler
    puts on screen and every id list it sends to the backend is a
    rearrangement of the current skills, respectively of their ids; so is
    the list on screen at the end.  The handler never rejects.  (The new
    order comes from [arrayMove], modelled as remove and reinsert.) *)
Theorem X18_reorder_keeps_the_skills W (env : Env W) (ev : DragEndEvent)
    (st : St W) :
  let r := handleDragEnd env (skills st) ev st in
  result r = Ok tt /\
  Permutation (skills (state r)) (skills st) /\
  Forall (fun e =>
            match e with
            | SetSkills l => Permutation l (skills st)
            | ApiReorderSkills ids =>
                Permutation ids (map ManagedSkill.id (skills st))
            | _ => True
            end) (events r).
Proof.
  assert (Hidle : result (idle tt st) = Ok tt /\
                  Permutation (skills (state (idle tt st))) (skills st) /\
                  Forall (fun e =>
                            match e with
                            | SetSkills l => Permutation l (skills st)
                            | ApiReorderSkills ids =>
                                Permutation ids
                                  (map ManagedSkill.id (skills st))
                            | _ => True
                            end) (events (idle tt st))).
  { split; [reflexivity|]. split; [apply Permutation_refl | constructor]. }
  cbv zeta. unfold handleDragEnd.
  destruct (over ev) as [o|]; [|exact Hidle].
  destruct (eqb (active ev) o); [exact Hidle|].
  destruct (findIndex _ (skills st)) as [a|]; [|exact Hidle].
  destruct (findIndex _ (skills st)) as [b|]; [|exact Hidle].
  clear Hidle.
  pose proof (arrayMove_Permutation (skills st) a b) as Hperm.
  pose proof (Permutation_map ManagedSkill.id Hperm) as Hids.
  set (new := arrayMove (skills st) a b) in *.
  unfold bind, try_catch, setSkills, reorderSkills, refreshTrayMenu, call,
    emit.
  cbn [result state events world skills deleteSkillId actionLoading app].
  destruct (api_reorderSkills env _ (world st)) as [[[]|e] w];
    cbn [result state events world skills deleteSkillId actionLoading app].
  - destruct (appApi_refreshTrayMenu env w) as [[[]|e] w2];
      cbn [result state events world skills deleteSkillId actionLoading app];
      (split; [reflexivity|]);
      (split; [first [exact Hperm | apply Permutation_refl]|]);
      repeat (constructor; auto).
  - split; [reflexivity|].
    split; [apply Permutation_refl|].
    repeat (constructor; auto).
Qed.

(** X19.  A reorder that goes through.  The dragged skill and the skill
    it is dropped on are different skills of the list, the backend stores
    the order and the tray refresh succeeds: the new order is shown first,
    then sent as ids, then the tray is refreshed; no rollback, no error.
    In the new order the dragged skill stands at the index the drop target
    had, and the list has the same length.  (The new order comes from
    [arrayMove], modelled as remove and reinsert.) *)
Theorem X19_reorder_success W (env : Env W) (skills0 : list ManagedSkill.t)
    (ev : DragEndEvent) (o : jsstring) (a b : nat) (st : St W) (w1 w2 : W) :
  over ev = Some o ->
  eqb (active ev) o = false ->
  resolveSkill skills0 (active ev) = Some a ->
  resolveSkill skills0 o = Some b ->
  let new := arrayMove skills0 a b in
  api_reorderSkills env (map ManagedSkill.id new) (world st) = (Ok tt, w1) ->
  appApi_refreshTrayMenu env w1 = (Ok tt, w2) ->
  handleDragEnd env skills0 ev st =
    {| result := Ok tt;
       state := {| world := w2; skills := new;
                   deleteSkillId := deleteSkillId st;
                   actionLoading := actionLoading st |};
       events :=
         [SetSkills new; ApiReorderSkills (map ManagedSkill.id new);
          RefreshTrayMenu] |} /\
  nth_error new b = nth_error skills0 a /\
  (exists s, nth_error new b = Some s /\ ManagedSkill.id s = active ev) /\
  List.length new = List.length skills0.
Proof.
  intros Ho Hne Ha Hb new Hp Ht.
  assert (Hpos : nth_error new b = nth_error skills0 a).
  { apply arrayMove_nth_error; eapply findIndex_lt; eassumption. }
  split; [|split; [exact Hpos|split]].
  - unfold handleDragEnd, resolveSkill in *. rewrite Ho, Hne, Ha, Hb.
    fold new.
    unfold bind, try_catch, setSkills, reorderSkills, refreshTrayMenu, call,
      emit.
    cbn [result state events world skills deleteSkillId actionLoading app].
    rewrite Hp.
    cbn [result state events world skills deleteSkillId actionLoading app].
    rewrite Ht. reflexivity.
  - rewrite Hpos. unfold resolveSkill in Ha.
    apply findIndex_Some in Ha. destruct Ha as [s [Hs Hid]].
    exists s. split; [exact Hs | apply eqb_eq; exact Hid].
  - apply Permutation_length, arrayMove_Permutation.
Qed.

Lemma X19_witness :
  let ev := {| active := lit "4"; over := Some (lit "2") |} in
  let st := Scenario.start Scenario.quiet Scenario.skills1234 in
  let r := handleDragEnd Scenario.env Scenario.skills1234 ev st in
  (over ev = Some (lit "2") /\ eqb (active ev) (lit "2") = false /\
   resolveSkill Scenario.skills1234 (active ev) = Some 3 /\
   resolveSkill Scenario.skills1234 (lit "2") = Some 1) /\
  map ManagedSkill.id (skills (state r))
    = map lit ["1"; "4"; "2"; "3"]%string /\
  Scenario.persisted (world (state r)) = map lit ["1"; "4"; "2"; "3"]%string.
Proof.
  intros ev st r.
  split; [repeat split|].
  destruct (@X19_reorder_success _ Scenario.env Scenario.skills1234 ev
              (lit "2") 3 1 st _ _
              eq_refl eq_refl eq_refl eq_refl eq_refl eq_refl)
    as [H _].
  fold r in H. rewrite H. split; reflexivity.
Defined.
